(** * Biometric authentication service: matching, thresholding and fusion

    A shallow embedding of [app.py]: the face matcher ([match_face]), the
    voice identification endpoint ([recognize_voice]), the combined
    authentication endpoint ([combined_authentication]), the lip-sync
    analysis ([lip_sync_check]) and the profile listing
    ([get_available_profiles]).

    Numbers.  The Python code computes with binary floating point; the
    embedding idealises every float as an exact rational ([Q]), so that the
    thresholds, clamps and roundings of the source are the only numeric
    behaviour in the model.  The one infinite value the source uses
    ([float("inf")], the initial [best_dist] of [match_face]) is kept as a
    separate constructor.

    Collaborators.  Image decoding, the face detector and encoder, the
    waveform preprocessor, the voice encoder, the landmark pipeline and the
    two numpy metrics are external to the program.  They are the fields of
    the class [Collaborators]; each fallible one returns a [result], because
    the source wraps every call to them in [try]/[except].  Staging an
    upload in a temporary file belongs to the collaborator that reads it.

    Responses.  A response body is a record with the keys of the source.
    Building a [JSONResponse] serialises the body; where the body holds a
    numpy scalar that [json.dumps] refuses, the constructor raises inside
    the handler's [try], and the model follows the [except] clause as the
    source does.  The numpy type of a voice similarity depends on the
    element type of the two embeddings, which the collaborators report
    ([embedding_dtype]); face distances are computed in double precision by
    the face encoder, so a face similarity is always serialisable. *)

From Stdlib Require Import QArith Qround ZArith List String Bool Lia Lqa.
From Stdlib Require Import Strings.Byte Strings.Ascii.
From Stdlib Require Import DecimalString.
Import ListNotations.

Open Scope Q_scope.

(** ** Python builtins used by the source *)

Module Py.

(** [x < y] on numbers. *)
Definition ltb (x y : Q) : bool := negb (Qle_bool y x).

(** [x > y] on numbers. *)
Definition gtb (x y : Q) : bool := ltb y x.

(** [x >= y] on numbers. *)
Definition geb (x y : Q) : bool := Qle_bool y x.

(** [max(a, b)]: the first argument stays unless the second is greater. *)
Definition max (a b : Q) : Q := if ltb a b then b else a.

(** [min(a, b)]: the first argument stays unless the second is smaller. *)
Definition min (a b : Q) : Q := if ltb b a then b else a.

(** Nearest integer, ties to the even neighbour. *)
Definition round_half_even (q : Q) : Z :=
  let f := Qfloor q in
  match Qcompare (q - inject_Z f) (1 # 2) with
  | Lt => f
  | Gt => (f + 1)%Z
  | Eq => if Z.even f then f else (f + 1)%Z
  end.

(** [round(q, ndigits)] for a non-negative [ndigits]. *)
Definition round (q : Q) (ndigits : nat) : Q :=
  let scale := inject_Z (10 ^ Z.of_nat ndigits) in
  inject_Z (round_half_even (q * scale)) / scale.

(** Truth value of a [str]: the empty string is falsy. *)
Definition str_truthy (s : string) : bool :=
  match s with
  | EmptyString => false
  | String _ _ => true
  end.

(** Truth value of an optional [str] ([None] or a string). *)
Definition opt_str_truthy (o : option string) : bool :=
  match o with
  | None => false
  | Some s => str_truthy s
  end.

(** Truth value of a list. *)
Definition list_truthy {A : Type} (l : list A) : bool :=
  match l with
  | [] => false
  | _ :: _ => true
  end.

(** [x in xs] for a list of strings. *)
Definition str_in (x : string) (xs : list string) : bool :=
  existsb (String.eqb x) xs.

(** [sum(l)]. *)
Definition sum (l : list Q) : Q := fold_left Qplus l 0.

(** [np.mean(l)]. *)
Definition np_mean (l : list Q) : Q :=
  sum l / inject_Z (Z.of_nat (List.length l)).

(** [np.var(l)]: the population variance (numpy's default [ddof=0]). *)
Definition np_var (l : list Q) : Q :=
  let m := np_mean l in
  np_mean (map (fun x => (x - m) * (x - m)) l).

(** A float that may be [float("inf")]. *)
Inductive efloat : Type :=
| Fin (q : Q)
| Inf.

(** [x < e] for a finite [x]. *)
Definition lt_e (x : Q) (e : efloat) : bool :=
  match e with
  | Fin q => ltb x q
  | Inf => true
  end.

(** [e < x] for a finite [x]. *)
Definition e_lt (e : efloat) (x : Q) : bool :=
  match e with
  | Fin q => ltb q x
  | Inf => false
  end.

(** [max(0.0, 1.0 - e)]: [1.0 - inf] is [-inf], which [0.0] beats. *)
Definition max0_one_minus (e : efloat) : Q :=
  match e with
  | Fin q => max 0 (1 - q)
  | Inf => 0
  end.

(** [str(n)] for a natural number. *)
Definition str_of_nat (n : nat) : string :=
  NilEmpty.string_of_uint (Nat.to_uint n).

End Py.

(** ** Dictionaries

    [face_data] and [voice_data] are Python dicts keyed by profile name.
    The matchers iterate over [items()], whose order is the insertion
    order, so a dict is an association list in that order. *)

Definition dict (V : Type) : Type := list (string * V).

(** [d.get(k)] / [d[k]] when present. *)
Fixpoint dict_get {V : Type} (k : string) (d : dict V) : option V :=
  match d with
  | [] => None
  | (k', v) :: rest => if String.eqb k k' then Some v else dict_get k rest
  end.

(** [k in d]. *)
Definition dict_mem {V : Type} (k : string) (d : dict V) : bool :=
  match dict_get k d with
  | Some _ => true
  | None => false
  end.

(** ** Exceptions *)

(** Outcome of a call that may raise; [Raised msg] carries [str(e)]. *)
Inductive result (A : Type) : Type :=
| Ok (a : A)
| Raised (msg : string).

Arguments Ok {A} a.
Arguments Raised {A} msg.

Definition result_bind {A B : Type} (r : result A) (k : A -> result B)
  : result B :=
  match r with
  | Ok a => k a
  | Raised msg => Raised msg
  end.

(** [try: body  except Exception as e: handler(str(e))]. *)
Definition try_except {A : Type} (body : result A) (handler : string -> A)
  : A :=
  match body with
  | Ok a => a
  | Raised msg => handler msg
  end.

Declare Scope result_scope.
Delimit Scope result_scope with result.
Notation "x <- c ;; k" := (result_bind c (fun x => k))
  (at level 61, c at next level, right associativity) : result_scope.
Notation "' pat <- c ;; k" :=
  (result_bind c (fun x => match x with pat => k end))
  (at level 61, pat pattern, c at next level, right associativity)
  : result_scope.

(** What a request handler hands back: a JSON body with its status code, or
    an [HTTPException]. *)
Inductive http (B : Type) : Type :=
| JSONResponse (status_code : nat) (content : B)
| HTTPException (status_code : nat) (detail : string).

Arguments JSONResponse {B} status_code content.
Arguments HTTPException {B} status_code detail.

(** ** numpy scalars in a response body

    [JSONResponse(...)] renders its content with [json.dumps] when it is
    built.  The content of some responses holds numpy scalars: [json.dumps]
    writes an [np.float64] as a number (the class derives from Python's
    [float]) and raises [TypeError] on an [np.float32] and on a numpy bool.
    The payload records below keep numbers as [Q] and flags as [bool]; the
    numpy type of the values that reach a body is tracked next to them. *)
Inductive dtype : Type := float32 | float64.

Inductive np_scalar : Type :=
| np_bool
| np_float (d : dtype).

Definition json_serializable (v : np_scalar) : bool :=
  match v with
  | np_float float64 => true
  | np_float float32 => false
  | np_bool => false
  end.

(** [type(v).__name__], as numpy 2 names its classes (numpy 1 calls the
    bool class [bool_]). *)
Definition np_class_name (v : np_scalar) : string :=
  match v with
  | np_bool => "bool"
  | np_float float32 => "float32"
  | np_float float64 => "float64"
  end.

(** [str(e)] of the [TypeError] of [json.dumps]. *)
Definition TypeError (v : np_scalar) : string :=
  "Object of type " ++ np_class_name v ++ " is not JSON serializable".

(** [JSONResponse(status_code=..., content=...)] for a content that holds
    the numpy scalars [numpy_values]: the constructor raises on the first of
    them that [json.dumps] refuses. *)
Definition json_response {B : Type} (numpy_values : list np_scalar)
           (status_code : nat) (content : B) : result (http B) :=
  match find (fun v => negb (json_serializable v)) numpy_values with
  | Some v => Raised (TypeError v)
  | None => Ok (JSONResponse status_code content)
  end.

(** The type of [a * b], [a / b] and [np.dot(a, b)] on numpy floats: single
    precision only when both operands are.  A Python int or float operand
    ([similarity * 100]) leaves the numpy type as it is, and so does
    [round(x, 2)] (promotion rules of numpy 2). *)
Definition result_type (a b : dtype) : dtype :=
  match a, b with
  | float32, float32 => float32
  | _, _ => float64
  end.

(** [max(0, x)] for a numpy float [x]: the builtin keeps its first argument,
    the Python int [0], unless [x] is greater; only then is the result a
    numpy scalar. *)
Definition max0_scalars (d : dtype) (x : Q) : list np_scalar :=
  if Py.gtb x 0 then [np_float d] else [].

(** ** Response payloads *)

(** An entry of [matches], and the value of [face_match] / [voice_match]. *)
Record match_record : Type := mkMatch {
  name : string;
  similarity : Q;
  confidence : string
}.

(** Body of [/api/face-recognition]. *)
Record face_response : Type := mkFaceResponse {
  fr_success : bool;
  fr_message : string;
  fr_matches : list match_record
}.

(** Body of [/api/voice-recognition]; the short-audio body has no
    [best_similarity] key. *)
Record voice_response : Type := mkVoiceResponse {
  vr_success : bool;
  vr_message : string;
  vr_matches : list match_record;
  vr_best_similarity : option Q
}.

(** Body of [/api/authenticate]. *)
Record auth_response : Type := mkAuthResponse {
  success : bool;
  message : string;
  face_match : option match_record;
  voice_match : option match_record;
  authentication_passed : bool
}.

(** The [supports_modes] object of a listed profile. *)
Record supports_modes : Type := mkModes {
  sm_face : bool;
  sm_voice : bool;
  sm_both : bool
}.

(** An entry of [profiles] in [/api/profiles]. *)
Record profile_entry : Type := mkProfile {
  pe_name : string;
  has_face_model : bool;
  has_voice_model : bool;
  pe_supports_modes : supports_modes
}.

Record profiles_response : Type := mkProfiles {
  profiles : list profile_entry;
  total_profiles : nat
}.

(** One element of [lip_movements]. *)
Record lip_movement : Type := mkLip {
  frame : nat;
  timestamp : Q;
  lip_distance : Q
}.

(** The [analysis] object of [/api/lip-sync-check]: the success body and the
    error body have different keys. *)
Inductive lip_analysis : Type :=
| Analysis (duration_analyzed : Q) (frames_processed : nat)
           (audio_samples : Z) (movement_variance : Q) (movement_mean : Q)
           (has_significant_movement : bool) (has_audio : bool)
| AnalysisError (duration_analyzed : Q) (frames_processed : nat)
                (audio_samples : Z) (error : string).

Record lip_response : Type := mkLipResponse {
  ls_success : bool;
  lip_sync_detected : bool;
  ls_confidence : Q;
  ls_message : string;
  analysis : lip_analysis
}.

(** ** External collaborators

    The extractors and the numpy metrics the program calls.  Feature vectors
    and raw media are opaque to the program, so the interface is
    parameterised by their types. *)

Class Collaborators (Image Location Encoding Waveform Embedding : Type)
  : Type := {
  (** [decode_base64_image]: base64 and PIL decoding; raises on bad data. *)
  decode_base64_image : string -> result Image;
  (** [face_recognition.face_locations]. *)
  face_locations : Image -> result (list Location);
  (** [face_recognition.face_encodings], one vector per location. *)
  face_encodings : Image -> list Location -> result (list Encoding);
  (** [np.linalg.norm(a - b)]. *)
  l2_distance : Encoding -> Encoding -> Q;
  (** Staging the upload in a temporary file, then [preprocess_wav]. *)
  preprocess_wav : list byte -> result Waveform;
  (** [len(wav_data)]. *)
  wav_len : Waveform -> Z;
  (** [voice_encoder.embed_utterance]. *)
  embed_utterance : Waveform -> result Embedding;
  (** [np.dot(a, b) / (np.linalg.norm(a) * np.linalg.norm(b))]. *)
  cosine_similarity : Embedding -> Embedding -> Q;
  (** [a.dtype] of an embedding: the element type of the vector the voice
      encoder returned, or of the vector unpickled from the model file. *)
  embedding_dtype : Embedding -> dtype;
  (** Lines 397-463 of [lip_sync_check]: decoding the video, the capture's
      frame rate ([fps], already defaulted to 30) and the face-mesh loop
      that fills [lip_movements]. *)
  lip_movements_of_video : string -> result (Q * list lip_movement)
}.

(** ** The program *)

Section Program.

Local Open Scope string_scope.

Context {Image Location Encoding Waveform Embedding : Type}.
Context {C : Collaborators Image Location Encoding Waveform Embedding}.

(** *** Module globals *)

Record store : Type := mkStore {
  face_data : dict Encoding;
  voice_data : dict Embedding
}.

(** Code that runs against the module globals. *)
Definition handler (B : Type) : Type := store -> B * store.

Definition ret {B : Type} (b : B) : handler B := fun st => (b, st).

Definition bind {A B : Type} (m : handler A) (k : A -> handler B)
  : handler B :=
  fun st => let (a, st') := m st in k a st'.

Definition read_face_data : handler (dict Encoding) :=
  fun st => (face_data st, st).

Definition read_voice_data : handler (dict Embedding) :=
  fun st => (voice_data st, st).

Definition write_face_data (d : dict Encoding) : handler unit :=
  fun st => (tt, mkStore d (voice_data st)).

Definition write_voice_data (d : dict Embedding) : handler unit :=
  fun st => (tt, mkStore (face_data st) d).

(** Lines 47-62: both globals start empty and are replaced by the pickled
    dictionaries when the files exist ([None]: [FileNotFoundError]). *)
Definition load_models (face_pkl : option (dict Encoding))
           (voice_pkl : option (dict Embedding)) : handler unit :=
  bind (write_face_data []) (fun _ =>
  bind (write_voice_data []) (fun _ =>
  bind (match face_pkl with
        | Some d => write_face_data d
        | None => ret tt
        end) (fun _ =>
  match voice_pkl with
  | Some d => write_voice_data d
  | None => ret tt
  end))).

(** *** [get_available_profiles] *)

Definition get_available_profiles : handler profiles_response :=
  bind read_face_data (fun face_data =>
  bind read_voice_data (fun voice_data =>
  let available_profiles :=
    fold_left
      (fun available_profiles profile =>
         let has_face := dict_mem profile face_data in
         let has_voice := dict_mem profile voice_data in
         (available_profiles ++
            [mkProfile profile has_face has_voice
               (mkModes has_face has_voice (has_face && has_voice))])%list)
      ["Fenny"; "George"; "Jovin"] [] in
  ret (mkProfiles available_profiles (List.length available_profiles)))).

(** *** [match_face] *)

(** One iteration of the loop over [face_data.items()]. *)
Definition match_face_step (encoding : Encoding)
           (acc : option string * Py.efloat) (item : string * Encoding)
  : option string * Py.efloat :=
  let '(best_match, best_dist) := acc in
  let '(name, known_encoding) := item in
  let dist := l2_distance encoding known_encoding in
  if Py.lt_e dist best_dist then (Some name, Py.Fin dist)
  else (best_match, best_dist).

(** The loop, from [best_match = None] and [best_dist = float("inf")]. *)
Definition match_face_loop (encoding : Encoding) (face_data : dict Encoding)
  : option string * Py.efloat :=
  fold_left (match_face_step encoding) face_data (None, Py.Inf).

Definition match_face (encoding : Encoding) (face_data : dict Encoding)
           (threshold : Q) : option string * Q :=
  let '(best_match, best_dist) := match_face_loop encoding face_data in
  let similarity := Py.max0_one_minus best_dist * 100 in
  if Py.e_lt best_dist threshold then (best_match, similarity)
  else (None, similarity).

(** *** [recognize_face] *)

Definition recognize_face (image_data user_id : string)
  : handler (http face_response) :=
  bind read_face_data (fun face_data =>
  ret (try_except
    (image_array <- decode_base64_image image_data ;;
     locations <- face_locations image_array ;;
     if negb (Py.list_truthy locations) then
       Ok (JSONResponse 200
             (mkFaceResponse false "No face detected in the image" []))
     else
       (encodings <- face_encodings image_array locations ;;
        let results :=
          fold_left
            (fun results encoding =>
               let '(name, similarity) := match_face encoding face_data 0.6 in
               match name with
               | Some name =>
                 if Py.str_truthy name then
                   (results ++
                      [mkMatch name (Py.round similarity 2)
                         (if Py.gtb similarity 70 then "high"
                          else if Py.gtb similarity 40 then "medium"
                          else "low")])%list
                 else results
               | None => results
               end)
            encodings [] in
        Ok (JSONResponse 200
              (mkFaceResponse true
                 ("Processed " ++ Py.str_of_nat (List.length encodings)
                    ++ " face(s)")
                 results))))%result
    (fun e => HTTPException 500 ("Face recognition failed: " ++ e)))).

(** *** [recognize_voice] *)

(** One iteration of the loop over [voice_data.items()]. *)
Definition voice_scan_step (input_embedding : Embedding)
           (acc : option string * Q) (item : string * Embedding)
  : option string * Q :=
  let '(best_match, highest_similarity) := acc in
  let '(name, stored_embedding) := item in
  let similarity := cosine_similarity input_embedding stored_embedding in
  if Py.gtb similarity highest_similarity then (Some name, similarity)
  else (best_match, highest_similarity).

(** The loop, from [best_match = None] and [highest_similarity = -1]. *)
Definition voice_scan (input_embedding : Embedding)
           (voice_data : dict Embedding) : option string * Q :=
  fold_left (voice_scan_step input_embedding) voice_data (None, -1).

(** Lines 211-242: what follows the embedding of the utterance. *)
Definition voice_identify (input_embedding : Embedding)
           (voice_data : dict Embedding) : voice_response :=
  let '(best_match, highest_similarity) :=
    voice_scan input_embedding voice_data in
  let similarity_percent := Py.max 0 (highest_similarity * 100) in
  let results :=
    match best_match with
    | Some name =>
      if Py.str_truthy name && Py.geb highest_similarity 0.60 then
        [mkMatch name (Py.round similarity_percent 2)
           (if Py.gtb similarity_percent 75 then "high" else "medium")]
      else []
    | None => []
    end in
  mkVoiceResponse true "Voice processed successfully" results
    (Some (if Py.opt_str_truthy best_match
           then Py.round similarity_percent 2 else 0)).

(** The numpy type of [highest_similarity] next to its value: the loop stores
    the numpy scalar [similarity] over the Python int [-1], which has no
    numpy type ([None]). *)
Definition similarity_dtype_step (input_embedding : Embedding)
           (acc : Q * option dtype) (item : string * Embedding)
  : Q * option dtype :=
  let '(highest_similarity, _) := acc in
  let '(_, stored_embedding) := item in
  let similarity := cosine_similarity input_embedding stored_embedding in
  if Py.gtb similarity highest_similarity then
    (similarity,
     Some (result_type (embedding_dtype input_embedding)
                       (embedding_dtype stored_embedding)))
  else acc.

Definition highest_similarity_dtype (input_embedding : Embedding)
           (voice_data : dict Embedding) : option dtype :=
  snd (fold_left (similarity_dtype_step input_embedding) voice_data
         (-1, None)).

(** The numpy scalars in the content of lines 236-241:
    [round(similarity_percent, 2)] has the type of [similarity_percent], and
    it is in the content when [best_match] is truthy ([matches] holds it only
    then, too). *)
Definition voice_identify_scalars (input_embedding : Embedding)
           (voice_data : dict Embedding) : list np_scalar :=
  let '(best_match, highest_similarity) :=
    voice_scan input_embedding voice_data in
  match highest_similarity_dtype input_embedding voice_data with
  | Some d =>
    if Py.opt_str_truthy best_match
    then max0_scalars d (highest_similarity * 100)
    else []
  | None => []
  end.

Definition recognize_voice (audio_file : list byte) (user_id : string)
  : handler (http voice_response) :=
  bind read_voice_data (fun voice_data =>
  ret (try_except
    (wav_data <- preprocess_wav audio_file ;;
     if (wav_len wav_data <? 16000)%Z then
       json_response [] 200
         (mkVoiceResponse false "Audio too short or unclear" [] None)
     else
       (input_embedding <- embed_utterance wav_data ;;
        json_response (voice_identify_scalars input_embedding voice_data) 200
          (voice_identify input_embedding voice_data)))%result
    (fun e => HTTPException 500 ("Voice recognition failed: " ++ e)))).

(** *** [combined_authentication] *)

(** Lines 273-308, the face block.  It is entered with the current
    [results["message"]] and yields [face_success], [results["face_match"]]
    and the message after the block. *)
Definition face_authentication (face_data : dict Encoding)
           (mode profile : string) (image_data : option string)
           (message : string) : bool * option match_record * string :=
  match image_data with
  | Some data =>
    if Py.str_in mode ["face"; "both"] && Py.str_truthy data then
      try_except
        (image_array <- decode_base64_image data ;;
         locations <- face_locations image_array ;;
         if Py.list_truthy locations then
           (encodings <- face_encodings image_array locations ;;
            match encodings with
            | encoding :: _ =>
              match dict_get profile face_data with
              | Some known_encoding =>
                let dist := l2_distance encoding known_encoding in
                let similarity := Py.max 0 (1 - dist) * 100 in
                if Py.ltb dist 0.6 then
                  Ok (true,
                      Some (mkMatch profile (Py.round similarity 2)
                              (if Py.gtb similarity 70 then "high"
                               else "medium")),
                      message)
                else
                  Ok (false,
                      Some (mkMatch "No match" (Py.round similarity 2) "low"),
                      message)
              | None =>
                Ok (false, None,
                    message ++ "Profile " ++ profile
                      ++ " not found in face models. ")
              end
            | [] => Ok (false, None, message)
            end)
         else Ok (false, None, message ++ "No face detected in image. "))%result
        (fun e =>
           (false, None, message ++ "Face recognition error: " ++ e ++ ". "))
    else (false, None, message)
  | None => (false, None, message)
  end.

(** Lines 310-353, the voice block; an [UploadFile] is always truthy. *)
Definition voice_authentication (voice_data : dict Embedding)
           (mode profile : string) (audio_file : option (list byte))
           (message : string) : bool * option match_record * string :=
  match audio_file with
  | Some content =>
    if Py.str_in mode ["voice"; "both"] then
      try_except
        (wav_data <- preprocess_wav content ;;
         if (16000 <=? wav_len wav_data)%Z then
           (input_embedding <- embed_utterance wav_data ;;
            match dict_get profile voice_data with
            | Some stored_embedding =>
              let similarity :=
                cosine_similarity input_embedding stored_embedding in
              let similarity_percent := Py.max 0 (similarity * 100) in
              if Py.geb similarity 0.60 then
                Ok (true,
                    Some (mkMatch profile (Py.round similarity_percent 2)
                            (if Py.gtb similarity_percent 75 then "high"
                             else "medium")),
                    message)
              else
                Ok (false,
                    Some (mkMatch "No match"
                            (Py.round similarity_percent 2) "low"),
                    message)
            | None =>
              Ok (false, None,
                  message ++ "Profile " ++ profile
                    ++ " not found in voice models. ")
            end)
         else Ok (false, None, message ++ "Audio too short or unclear. "))%result
        (fun e =>
           (false, None, message ++ "Voice recognition error: " ++ e ++ ". "))
    else (false, None, message)
  | None => (false, None, message)
  end.

(** Lines 355-364: the overall decision for each mode. *)
Definition fuse (mode : string) (face_success voice_success : bool) : bool :=
  if String.eqb mode "face" then face_success
  else if String.eqb mode "voice" then voice_success
  else if String.eqb mode "both" then face_success && voice_success
  else false.

(** The numpy scalars the voice block leaves in [results]: the
    [round(similarity_percent, 2)] of the record it writes (lines 337 and
    343), which has the type of [similarity_percent]. *)
Definition voice_match_scalars (voice_data : dict Embedding)
           (mode profile : string) (audio_file : option (list byte))
  : list np_scalar :=
  match audio_file with
  | Some content =>
    if Py.str_in mode ["voice"; "both"] then
      try_except
        (wav_data <- preprocess_wav content ;;
         if (16000 <=? wav_len wav_data)%Z then
           (input_embedding <- embed_utterance wav_data ;;
            match dict_get profile voice_data with
            | Some stored_embedding =>
              let similarity :=
                cosine_similarity input_embedding stored_embedding in
              Ok (max0_scalars
                    (result_type (embedding_dtype input_embedding)
                                 (embedding_dtype stored_embedding))
                    (similarity * 100))
            | None => Ok []
            end)
         else Ok [])%result
        (fun _ => [])
    else []
  | None => []
  end.

(** Lines 262-370: the dict [results] as it stands at line 372. *)
Definition authentication_results (face_data : dict Encoding)
           (voice_data : dict Embedding) (mode profile : string)
           (image_data : option string) (audio_file : option (list byte))
  : auth_response :=
  let '(face_success, face_match, message) :=
    face_authentication face_data mode profile image_data "" in
  let '(voice_success, voice_match, message) :=
    voice_authentication voice_data mode profile audio_file message in
  let passed := fuse mode face_success voice_success in
  let message :=
    if passed then "Authentication successful for " ++ profile
    else if Py.str_truthy message then message
    else "Authentication failed for " ++ profile in
  mkAuthResponse passed message face_match voice_match passed.

(** The whole handler: lines 262-372 under the [try] of line 261, with the
    [except] of lines 374-376.  The two blocks catch what their collaborators
    raise; what is left to raise is [JSONResponse] at line 372. *)
Definition combined_authentication (mode profile user_id : string)
           (image_data : option string) (audio_file : option (list byte))
  : handler (http auth_response) :=
  bind read_face_data (fun face_data =>
  bind read_voice_data (fun voice_data =>
  ret (try_except
    (json_response (voice_match_scalars voice_data mode profile audio_file)
       200
       (authentication_results face_data voice_data mode profile image_data
                               audio_file))
    (fun e => HTTPException 500 ("Authentication failed: " ++ e))))).

(** *** [lip_sync_check] *)

(** Lines 465-508: the analysis of the collected [lip_movements].
    [movement_variance] and [movement_mean] are [np.float64], and so are
    their roundings; [has_significant_movement], the result of comparing an
    [np.float64], is a numpy bool.  Every content of lines 493-507 holds these
    three ([confidence] and [lip_sync_detected] are Python or numpy values
    depending on the branch taken, of the same two numpy types). *)
Definition lip_sync_analysis (fps : Q) (lip_movements : list lip_movement)
           (audio_content : list byte) : result (http lip_response) :=
  if (List.length lip_movements <? 10)%nat then
    Raised "Insufficient video data for lip sync analysis"
  else
    let distances := map lip_distance lip_movements in
    let movement_variance := Py.np_var distances in
    let movement_mean := Py.np_mean distances in
    let movement_threshold := 0.001 in
    let has_significant_movement :=
      Py.gtb movement_variance movement_threshold in
    let audio_size := Z.of_nat (List.length audio_content) in
    let has_audio := (audio_size >? 1000)%Z in
    let lip_sync_detected := has_significant_movement && has_audio in
    let confidence :=
      if lip_sync_detected
      then Py.min 0.95 (0.6 + movement_variance * 1000)
      else Py.max 0.1 (movement_variance * 500) in
    json_response [np_float float64; np_float float64; np_bool] 200
      (mkLipResponse true lip_sync_detected (Py.round confidence 3)
         (if lip_sync_detected
          then "Lip sync verified successfully!"
          else "Lip sync verification failed - insufficient lip movement detected.")
         (Analysis
            (Py.round
               (inject_Z (Z.of_nat (List.length lip_movements)) / fps) 2)
            (List.length lip_movements)
            audio_size
            (Py.round movement_variance 6)
            (Py.round movement_mean 6)
            has_significant_movement
            has_audio)).

Definition lip_sync_check (video_data : string) (audio_data : list byte)
           (duration : Z) : handler (http lip_response) :=
  ret (try_except
    ('(fps, lip_movements) <- lip_movements_of_video video_data ;;
     lip_sync_analysis fps lip_movements audio_data)%result
    (fun e =>
       JSONResponse 500
         (mkLipResponse false false 0
            ("Error during lip sync analysis: " ++ e)
            (AnalysisError 0 0 0 e)))).

(** *** The running service *)

Inductive request : Type :=
| GetProfiles
| FaceRecognition (image_data user_id : string)
| VoiceRecognition (audio_file : list byte) (user_id : string)
| Authenticate (mode profile user_id : string) (image_data : option string)
               (audio_file : option (list byte))
| LipSyncCheck (video_data : string) (audio_data : list byte) (duration : Z).

Inductive response : Type :=
| ProfilesBody (r : profiles_response)
| FaceBody (r : http face_response)
| VoiceBody (r : http voice_response)
| AuthBody (r : http auth_response)
| LipBody (r : http lip_response).

Definition dispatch (r : request) : handler response :=
  match r with
  | GetProfiles => bind get_available_profiles (fun b => ret (ProfilesBody b))
  | FaceRecognition image_data user_id =>
    bind (recognize_face image_data user_id) (fun b => ret (FaceBody b))
  | VoiceRecognition audio_file user_id =>
    bind (recognize_voice audio_file user_id) (fun b => ret (VoiceBody b))
  | Authenticate mode profile user_id image_data audio_file =>
    bind (combined_authentication mode profile user_id image_data audio_file)
         (fun b => ret (AuthBody b))
  | LipSyncCheck video_data audio_data duration =>
    bind (lip_sync_check video_data audio_data duration)
         (fun b => ret (LipBody b))
  end.

(** The requests of a process lifetime, answered one after the other. *)
Fixpoint serve (requests : list request) : handler (list response) :=
  match requests with
  | [] => ret []
  | r :: rest =>
    bind (dispatch r) (fun b =>
    bind (serve rest) (fun bs => ret (b :: bs)))
  end.

End Program.

(** ** Notions the properties are stated with *)

Section Notions.

Local Open Scope string_scope.

Context {Image Location Encoding Waveform Embedding : Type}.
Context {C : Collaborators Image Location Encoding Waveform Embedding}.

(** What face identification selects in a gallery: nothing, at distance
    [inf], when the gallery is empty; otherwise the entry of least
    distance to [encoding], the earliest one in iteration order among
    those at that distance. *)
Inductive first_minimum (encoding : Encoding) (face_data : dict Encoding)
  : option string -> Py.efloat -> Prop :=
| first_minimum_none :
    face_data = [] ->
    first_minimum encoding face_data None Py.Inf
| first_minimum_at (i : nat) (name : string) (known : Encoding) :
    nth_error face_data i = Some (name, known) ->
    (forall j item, nth_error face_data j = Some item ->
                    l2_distance encoding known
                    <= l2_distance encoding (snd item)) ->
    (forall j item, (j < i)%nat -> nth_error face_data j = Some item ->
                    l2_distance encoding known
                    < l2_distance encoding (snd item)) ->
    first_minimum encoding face_data (Some name)
                  (Py.Fin (l2_distance encoding known)).


(** The face sample of a request yields [encoding] as its first face
    vector: an image was supplied, it decodes, a face is located and the
    encoder returns [encoding] first. *)
Definition face_sample (image_data : option string) (encoding : Encoding)
  : Prop :=
  exists data image_array locations rest,
    image_data = Some data /\ data <> "" /\
    decode_base64_image data = Ok image_array /\
    face_locations image_array = Ok locations /\ locations <> [] /\
    face_encodings image_array locations = Ok (encoding :: rest).

(** The voice sample of a request yields [input_embedding]: audio was
    supplied, its waveform has at least 16000 samples and the encoder
    embeds it. *)
Definition voice_sample (audio_file : option (list byte))
           (input_embedding : Embedding) : Prop :=
  exists content wav_data,
    audio_file = Some content /\
    preprocess_wav content = Ok wav_data /\
    (16000 <= wav_len wav_data)%Z /\
    embed_utterance wav_data = Ok input_embedding.

(** Face verification succeeds: the sample yields a face vector, the
    profile has a face template and their L2 distance is below 0.6. *)
Definition face_verified (face_data : dict Encoding) (profile : string)
           (image_data : option string) : Prop :=
  exists encoding known_encoding,
    face_sample image_data encoding /\
    dict_get profile face_data = Some known_encoding /\
    l2_distance encoding known_encoding < 0.6.

(** Voice verification succeeds: the sample yields an embedding, the
    profile has a voice template and their cosine similarity is at least
    0.60. *)
Definition voice_verified (voice_data : dict Embedding) (profile : string)
           (audio_file : option (list byte)) : Prop :=
  exists input_embedding stored_embedding,
    voice_sample audio_file input_embedding /\
    dict_get profile voice_data = Some stored_embedding /\
    0.60 <= cosine_similarity input_embedding stored_embedding.

(** The voice block writes a record whose similarity [json.dumps] refuses:
    the sample yields an embedding, the profile has a voice template, both
    vectors are single precision and their similarity is above 0 (at or
    below 0, [similarity_percent] is the Python int [0]). *)
Definition voice_record_unserializable (voice_data : dict Embedding)
           (profile : string) (audio_file : option (list byte)) : Prop :=
  exists input_embedding stored_embedding,
    voice_sample audio_file input_embedding /\
    dict_get profile voice_data = Some stored_embedding /\
    embedding_dtype input_embedding = float32 /\
    embedding_dtype stored_embedding = float32 /\
    0 < cosine_similarity input_embedding stored_embedding.

(** A handler that leaves the module globals as it found them. *)
Definition readonly {B : Type} (m : @handler Encoding Embedding B) : Prop :=
  forall st, snd (m st) = st.

(** Two outcomes of the face encoder that agree on the first vector (and
    on failing, or on finding none). *)
Definition same_first (r r' : result (list Encoding)) : Prop :=
  match r, r' with
  | Ok (e :: _), Ok (e' :: _) => e = e'
  | Ok [], Ok [] => True
  | Raised msg, Raised msg' => msg = msg'
  | _, _ => False
  end.

(** The same collaborators with another face encoder. *)
Definition with_face_encodings
           (fe : Image -> list Location -> result (list Encoding))
  : Collaborators Image Location Encoding Waveform Embedding :=
  {| decode_base64_image := decode_base64_image;
     face_locations := face_locations;
     face_encodings := fe;
     l2_distance := l2_distance;
     preprocess_wav := preprocess_wav;
     wav_len := wav_len;
     embed_utterance := embed_utterance;
     cosine_similarity := cosine_similarity;
     embedding_dtype := embedding_dtype;
     lip_movements_of_video := lip_movements_of_video |}.

(** The same collaborators with embeddings of another element type. *)
Definition with_embedding_dtype (dt : Embedding -> dtype)
  : Collaborators Image Location Encoding Waveform Embedding :=
  {| decode_base64_image := decode_base64_image;
     face_locations := face_locations;
     face_encodings := face_encodings;
     l2_distance := l2_distance;
     preprocess_wav := preprocess_wav;
     wav_len := wav_len;
     embed_utterance := embed_utterance;
     cosine_similarity := cosine_similarity;
     embedding_dtype := dt;
     lip_movements_of_video := lip_movements_of_video |}.

End Notions.

(** ** A concrete set of collaborators

    Feature vectors are lists of rationals with the Euclidean geometry of
    the source.  The square root is exact on rationals that are squares,
    which is all the examples below need. *)

Module Demo.

Local Open Scope string_scope.

Definition exact_sqrt (q : Q) : Q :=
  let r := Qred q in
  inject_Z (Z.sqrt (Qnum r)) / inject_Z (Z.sqrt (Zpos (Qden r))).

Definition dot (a b : list Q) : Q :=
  Py.sum (map (fun xy => fst xy * snd xy) (combine a b)).

Definition norm (a : list Q) : Q := exact_sqrt (dot a a).

Definition sub (a b : list Q) : list Q :=
  map (fun xy => fst xy - snd xy) (combine a b).

(** The images a client may send, by payload: the face vectors found. *)
Definition images : dict (list (list Q)) :=
  [ ("img-same", [[0; 0]]);
    ("img-near", [[0.3; 0.4]]);
    ("img-third", [[1 # 3; 0]]);
    ("img-far", [[0.8; 0]]);
    ("img-two", [[0; 0]; [5; 5]]);
    ("img-two-swapped", [[5; 5]; [0; 0]]);
    ("img-empty", []) ].

(** The speaker of an upload is read off its first byte. *)
Definition voice_of (speaker : byte) : list Q :=
  match speaker with
  | x01 => [3; 4]
  | x02 => [5; 12]
  | x03 => [-1; 0]
  | x04 => [4; 3]
  | _ => [1; 0]
  end.

(** Per-frame lip gaps of the videos a client may send. *)
Definition gaps_talking : list Q :=
  [0; 0.1; 0; 0.1; 0; 0.1; 0; 0.1; 0; 0.1; 0; 0.1].

Definition gaps_mumble : list Q :=
  [0; 0.03; 0; 0.03; 0; 0.03; 0; 0.03; 0; 0.03].

Definition gaps_short : list Q :=
  [0; 0.1; 0; 0.1; 0; 0.1; 0; 0.1; 0].

Definition videos : dict (list Q) :=
  [ ("vid-talking", gaps_talking);
    ("vid-mumble", gaps_mumble);
    ("vid-short", gaps_short) ].

Definition series (fps : Q) (gaps : list Q) : list lip_movement :=
  map (fun ig => mkLip (fst ig) (inject_Z (Z.of_nat (fst ig)) / fps) (snd ig))
      (combine (seq 1 (List.length gaps)) gaps).

#[export] Instance collaborators
  : Collaborators (list (list Q)) nat (list Q) (Z * list Q) (list Q) :=
  {| decode_base64_image data :=
       match dict_get data images with
       | Some image_array => Ok image_array
       | None => Raised "400: Invalid image data"
       end;
     face_locations image_array := Ok (seq 0 (List.length image_array));
     face_encodings image_array locations :=
       Ok (map (fun i => nth i image_array []) locations);
     l2_distance a b := norm (sub a b);
     preprocess_wav content :=
       match content with
       | [] => Raised "empty audio file"
       | speaker :: _ =>
         Ok ((8000 * Z.of_nat (List.length content))%Z, voice_of speaker)
       end;
     wav_len wav_data := fst wav_data;
     embed_utterance wav_data := Ok (snd wav_data);
     cosine_similarity a b := dot a b / (norm a * norm b);
     embedding_dtype _ := float64;
     lip_movements_of_video video_data :=
       match dict_get video_data videos with
       | Some gaps => Ok (30, series 30 gaps)
       | None => Raised "could not read the video"
       end |}.

(** The same collaborators with single-precision embeddings, the element
    type of the vectors the voice encoder of the source returns. *)
Definition single_precision
  : Collaborators (list (list Q)) nat (list Q) (Z * list Q) (list Q) :=
  with_embedding_dtype (C := collaborators) (fun _ => float32).

(** A face encoder that keeps only the first face of an image. *)
Definition first_face_only (image_array : list (list Q))
           (locations : list nat) : result (list (list Q)) :=
  Ok (firstn 1 (map (fun i => nth i image_array []) locations)).

(** An enrolled gallery. *)
Definition gallery : store :=
  mkStore [("George", [0; 0]); ("Jovin", [1; 0])]
          [("George", [1; 0])].

End Demo.

(** ** The remaining endpoints and helpers *)

(** Body of [/api/health]. *)
Record health_response : Type := mkHealth {
  hr_status : string;
  face_models_loaded : nat;
  voice_models_loaded : nat
}.

(** Outcome of a helper that raises an [HTTPException] of its own. *)
Inductive raising (A : Type) : Type :=
| Returned (a : A)
| HTTPRaised (status_code : nat) (detail : string).

Arguments Returned {A} a.
Arguments HTTPRaised {A} status_code detail.

(** Python string methods used on the payloads. *)
Module PyStr.

(** [c in s] for a character [c]. *)
Fixpoint contains (c : ascii) (s : string) : bool :=
  match s with
  | EmptyString => false
  | String c' rest => Ascii.eqb c' c || contains c rest
  end.

(** [s.split(sep)] for a one-character separator: every separator cuts,
    and empty pieces are kept. *)
Fixpoint split (sep : ascii) (s : string) : list string :=
  match s with
  | EmptyString => [EmptyString]
  | String c rest =>
    if Ascii.eqb c sep then EmptyString :: split sep rest
    else match split sep rest with
         | piece :: pieces => String c piece :: pieces
         | [] => [String c EmptyString]
         end
  end.

(** [pieces[1]]. *)
Definition item1 (pieces : list string) : result string :=
  match nth_error pieces 1 with
  | Some piece => Ok piece
  | None => Raised "list index out of range"
  end.

End PyStr.

Section Remaining.

Local Open Scope string_scope.

Context {Image Encoding Embedding : Type}.

(** *** [health_check] *)

Definition health_check : @handler Encoding Embedding health_response :=
  bind read_face_data (fun face_data =>
  bind read_voice_data (fun voice_data =>
  ret (mkHealth "healthy" (List.length face_data)
                (List.length voice_data)))).

(** *** [decode_base64_image] *)

(** Lines 106-107 with [kind = "data:image"], and lines 398-399 of
    [lip_sync_check] with [kind = "data:video"]: a data URL keeps what
    stands between its first and its second comma. *)
Definition strip_data_url (kind data : string) : result string :=
  if String.prefix kind data then PyStr.item1 (PyStr.split "," data)
  else Ok data.

(** [base64.b64decode], [Image.open], the conversion to RGB and
    [np.array], on the payload. *)
Variable open_rgb_array : string -> result Image.

Definition decode_base64_image_impl (base64_string : string)
  : raising Image :=
  try_except
    (base64_string <- strip_data_url "data:image" base64_string ;;
     image <- open_rgb_array base64_string ;;
     Ok (Returned image))%result
    (fun e => HTTPRaised 400 "Invalid image data").

End Remaining.

(** *** The frame loop of [lip_sync_check] *)

Section LipExtraction.

Context {Landmarks : Type}.

(** [face_landmarks.landmark[idx]], as [(x, y)]. *)
Variable landmark : Landmarks -> nat -> Q * Q.
(** [np.linalg.norm] of a difference of two points. *)
Variable norm2 : Q * Q -> Q.

Definition lip_indices : list nat :=
  [61; 84; 17; 314; 405; 320; 307; 375; 321; 308; 324; 318]%nat.

(** Lines 440-455: the mean distance between the six upper-lip points and
    the six lower-lip points, taken pairwise. *)
Definition lip_distance_of (face_landmarks : Landmarks) : Q :=
  let lip_points := map (landmark face_landmarks) lip_indices in
  let upper_lip := firstn 6 lip_points in
  let lower_lip := skipn 6 lip_points in
  Py.np_mean
    (map (fun ul => norm2 (fst (fst ul) - fst (snd ul),
                           snd (fst ul) - snd (snd ul)))
         (combine upper_lip lower_lip)).

(** Line 417: [cap.get(cv2.CAP_PROP_FPS) or 30]. *)
Definition fps_or_30 (raw : Q) : Q := if Qeq_bool raw 0 then 30 else raw.

(** Lines 428-461.  [frames] holds, for each frame read from the capture,
    the faces of [results.multi_face_landmarks] (none when it is [None]);
    each face of a frame appends one entry. *)
Fixpoint lip_movements_loop (fps : Q) (frame_count : nat)
         (lip_movements : list lip_movement)
         (frames : list (list Landmarks)) : list lip_movement :=
  match frames with
  | [] => lip_movements
  | multi_face_landmarks :: rest =>
    let frame_count := S frame_count in
    lip_movements_loop fps frame_count
      (lip_movements ++
         map (fun face_landmarks =>
                mkLip frame_count
                      (inject_Z (Z.of_nat frame_count) / fps)
                      (lip_distance_of face_landmarks))
             multi_face_landmarks)
      rest
  end.

(** Lines 416-463 on an opened capture. *)
Definition collect_lip_movements (raw_fps : Q)
           (frames : list (list Landmarks)) : Q * list lip_movement :=
  let fps := fps_or_30 raw_fps in
  (fps, lip_movements_loop fps 0 [] frames).

End LipExtraction.

(** * Properties *)

(** ** Comparisons, clamps and rounding *)

Module PyFacts.

Lemma ltb_lt (x y : Q) : Py.ltb x y = true <-> x < y.
Proof.
  unfold Py.ltb. rewrite negb_true_iff.
  split; intro H.
  - apply Qnot_le_lt. intro Hle. apply Qle_bool_iff in Hle. congruence.
  - destruct (Qle_bool y x) eqn:E; [|reflexivity].
    apply Qle_bool_iff in E. exfalso. apply (Qlt_not_le _ _ H E).
Qed.

Lemma ltb_ge (x y : Q) : Py.ltb x y = false <-> y <= x.
Proof.
  unfold Py.ltb. rewrite negb_false_iff. apply Qle_bool_iff.
Qed.

Lemma gtb_gt (x y : Q) : Py.gtb x y = true <-> y < x.
Proof. apply ltb_lt. Qed.

Lemma gtb_le (x y : Q) : Py.gtb x y = false <-> x <= y.
Proof. apply ltb_ge. Qed.

Lemma geb_ge (x y : Q) : Py.geb x y = true <-> y <= x.
Proof. apply Qle_bool_iff. Qed.

Lemma geb_lt (x y : Q) : Py.geb x y = false <-> x < y.
Proof.
  unfold Py.geb. split; intro H.
  - apply Qnot_le_lt. intro Hle. apply Qle_bool_iff in Hle. congruence.
  - destruct (Qle_bool y x) eqn:E; [|reflexivity].
    apply Qle_bool_iff in E. exfalso. apply (Qlt_not_le _ _ H E).
Qed.

Lemma ltb_cases (x y : Q) :
  (Py.ltb x y = true /\ x < y) \/ (Py.ltb x y = false /\ y <= x).
Proof.
  destruct (Py.ltb x y) eqn:E.
  - left. split; [reflexivity | now apply ltb_lt].
  - right. split; [reflexivity | now apply ltb_ge].
Qed.

#[export] Instance ltb_proper : Proper (Qeq ==> Qeq ==> eq) Py.ltb.
Proof.
  intros x x' Hx y y' Hy. unfold Py.ltb. now rewrite Hx, Hy.
Qed.

#[export] Instance max_proper : Proper (Qeq ==> Qeq ==> Qeq) Py.max.
Proof.
  intros x x' Hx y y' Hy. unfold Py.max. rewrite Hx, Hy.
  now destruct (Py.ltb x' y').
Qed.

#[export] Instance round_half_even_proper
  : Proper (Qeq ==> eq) Py.round_half_even.
Proof.
  intros x x' Hx. unfold Py.round_half_even.
  assert (Hf : Qfloor x = Qfloor x') by (apply Qfloor_comp; exact Hx).
  rewrite <- Hf.
  assert (Hc : Qcompare (x - inject_Z (Qfloor x)) (1 # 2)
               = Qcompare (x' - inject_Z (Qfloor x)) (1 # 2)).
  { apply Qcompare_comp; [|reflexivity].
    apply Qplus_comp; [exact Hx | reflexivity]. }
  now rewrite Hc.
Qed.

#[export] Instance round_proper : Proper (Qeq ==> eq ==> Qeq) Py.round.
Proof.
  intros x x' Hx n n' <-. unfold Py.round.
  assert (H : Py.round_half_even (x * inject_Z (10 ^ Z.of_nat n))
              = Py.round_half_even (x' * inject_Z (10 ^ Z.of_nat n))).
  { apply round_half_even_proper.
    apply Qmult_comp; [exact Hx | reflexivity]. }
  now rewrite H.
Qed.

End PyFacts.

(** ** Lists read by position *)

Lemma nth_error_snoc {A : Type} (l : list A) (x item : A) (j : nat) :
  nth_error (l ++ [x]) j = Some item ->
  ((j < List.length l)%nat /\ nth_error l j = Some item)
  \/ (j = List.length l /\ item = x).
Proof.
  intro H.
  destruct (Nat.lt_ge_cases j (List.length l)) as [Hlt | Hge].
  - left. split; [assumption|]. now rewrite nth_error_app1 in H.
  - right. rewrite nth_error_app2 in H by assumption.
    destruct (j - List.length l)%nat as [|k] eqn:E; simpl in H.
    + split; [lia | congruence].
    + destruct k; discriminate.
Qed.

Lemma nth_error_snoc_last {A : Type} (l : list A) (x : A) :
  nth_error (l ++ [x]) (List.length l) = Some x.
Proof.
  rewrite nth_error_app2 by lia. now rewrite Nat.sub_diag.
Qed.

(** ** Face identification *)

Section FaceIdentification.

Context {Image Location Encoding Waveform Embedding : Type}.
Context {C : Collaborators Image Location Encoding Waveform Embedding}.

Lemma match_face_loop_snoc (encoding : Encoding) (face_data : dict Encoding)
      (item : string * Encoding) :
  match_face_loop encoding (face_data ++ [item])
  = match_face_step encoding (match_face_loop encoding face_data) item.
Proof.
  unfold match_face_loop. now rewrite fold_left_app.
Qed.

(** The loop of [match_face] ends on the first entry of least distance. *)
Lemma match_face_loop_first_minimum (encoding : Encoding)
      (face_data : dict Encoding) :
  exists best_match best_dist,
    match_face_loop encoding face_data = (best_match, best_dist)
    /\ first_minimum encoding face_data best_match best_dist.
Proof.
  induction face_data as [|[name known] seen IH] using rev_ind.
  - exists None, Py.Inf. split; [reflexivity | now constructor].
  - destruct IH as (best & dist & Hloop & Hmin).
    rewrite match_face_loop_snoc, Hloop. simpl.
    inversion Hmin as [Hnil | i n k Hi Hle Hlt]; subst.
    + (* nothing seen yet: [dist < inf] holds *)
      simpl. eexists _, _. split; [reflexivity|].
      apply (first_minimum_at _ _ 0%nat); simpl.
      * reflexivity.
      * intros j item Hj. destruct j as [|[|j]]; simpl in Hj;
          try discriminate.
        injection Hj as <-. apply Qle_refl.
      * intros j item Hj. lia.
    + simpl.
      assert (Hi' : (i < List.length seen)%nat)
        by (apply nth_error_Some; congruence).
      destruct (PyFacts.ltb_cases (l2_distance encoding known)
                                  (l2_distance encoding k))
        as [[-> Hcmp] | [-> Hcmp]].
      * (* strictly closer than everything seen: the new entry wins *)
        eexists _, _. split; [reflexivity|].
        apply (first_minimum_at _ _ (List.length seen)).
        -- apply nth_error_snoc_last.
        -- intros j item Hj.
           apply nth_error_snoc in Hj as [[_ Hj] | [_ ->]].
           ++ apply Qlt_le_weak.
              eapply Qlt_le_trans; [exact Hcmp | exact (Hle _ _ Hj)].
           ++ apply Qle_refl.
        -- intros j item Hjlt Hj.
           apply nth_error_snoc in Hj as [[_ Hj] | [-> _]]; [|lia].
           eapply Qlt_le_trans; [exact Hcmp | exact (Hle _ _ Hj)].
      * (* not strictly closer: the earlier entry stays *)
        eexists _, _. split; [reflexivity|].
        apply (first_minimum_at _ _ i).
        -- now rewrite nth_error_app1.
        -- intros j item Hj.
           apply nth_error_snoc in Hj as [[_ Hj] | [_ ->]].
           ++ exact (Hle _ _ Hj).
           ++ exact Hcmp.
        -- intros j item Hjlt Hj.
           apply nth_error_snoc in Hj as [[_ Hj] | [-> _]]; [|lia].
           exact (Hlt _ _ Hjlt Hj).
Qed.

(** C4.  For every input vector and gallery, [match_face] with threshold
    0.6 selects the entry of minimum L2 distance, the first one in
    iteration order among those at that distance (nothing, at distance
    [inf], in an empty gallery); the score it returns is
    [max(0, 1 - minimum distance) * 100] whether or not a match is
    reported; and it reports a profile exactly when the minimum distance
    is below 0.6, in which case the profile is the selected entry. *)
Theorem match_face_selects_first_minimum (encoding : Encoding)
        (face_data : dict Encoding) :
  exists best_match min_dist,
    first_minimum encoding face_data best_match min_dist
    /\ snd (match_face encoding face_data 0.6)
       = Py.max0_one_minus min_dist * 100
    /\ (forall name,
           fst (match_face encoding face_data 0.6) = Some name
           <-> best_match = Some name
               /\ exists d, min_dist = Py.Fin d /\ d < 0.6)
    /\ (fst (match_face encoding face_data 0.6) = None
        <-> forall d, min_dist = Py.Fin d -> 0.6 <= d).
Proof.
  destruct (match_face_loop_first_minimum encoding face_data)
    as (best & dist & Hloop & Hmin).
  exists best, dist. split; [exact Hmin|].
  unfold match_face. rewrite Hloop.
  inversion Hmin as [Hnil | i n k Hi Hle Hlt]; subst; simpl.
  - split; [reflexivity|]. split.
    + intro name. split; [discriminate|].
      intros [Hbest _]. discriminate.
    + split; [discriminate | reflexivity].
  - destruct (PyFacts.ltb_cases (l2_distance encoding k) 0.6)
      as [[-> Hcmp] | [-> Hcmp]]; simpl.
    + split; [reflexivity|]. split.
      * intro name. split.
        -- intro H. split; [exact H|]. now exists (l2_distance encoding k).
        -- now intros [H _].
      * split; [discriminate|].
        intro H. exfalso.
        apply (Qlt_not_le _ _ Hcmp). now apply H.
    + split; [reflexivity|]. split.
      * intro name. split; [discriminate|].
        intros [_ (d & Hd & Hd')]. injection Hd as <-.
        exfalso. apply (Qlt_not_le _ _ Hd' Hcmp).
      * split; [|reflexivity].
        intros _ d Hd. now injection Hd as <-.
Qed.

End FaceIdentification.

Section FaceIdentificationExamples.

Local Open Scope string_scope.

Local Abbreviation C := Demo.collaborators.

(** The enrolled vector itself: matched, score 100. *)
Example match_face_identical :
  fst (match_face (C := C) [0; 0] (face_data Demo.gallery) 0.6)
  = Some "George"
  /\ snd (match_face (C := C) [0; 0] (face_data Demo.gallery) 0.6) == 100.
Proof. split; vm_compute; reflexivity. Qed.

(** At distance 0.8 from the nearest entry: score 20, no match. *)
Example match_face_far :
  l2_distance (Collaborators := C) [0; 0.8] [0; 0] == 0.8
  /\ fst (match_face (C := C) [0; 0.8] (face_data Demo.gallery) 0.6) = None
  /\ snd (match_face (C := C) [0; 0.8] (face_data Demo.gallery) 0.6) == 20.
Proof. repeat split; vm_compute; reflexivity. Qed.

(** Two entries at the same distance: the earlier one is returned. *)
Example match_face_tie :
  l2_distance (Collaborators := C) [0.5; 0] [0; 0]
  == l2_distance (Collaborators := C) [0.5; 0] [1; 0]
  /\ fst (match_face (C := C) [0.5; 0] (face_data Demo.gallery) 0.6)
     = Some "George".
Proof. split; vm_compute; reflexivity. Qed.

End FaceIdentificationExamples.

(** ** Voice identification *)

Section VoiceIdentification.

Local Open Scope string_scope.

Context {Image Location Encoding Waveform Embedding : Type}.
Context {C : Collaborators Image Location Encoding Waveform Embedding}.






End VoiceIdentification.

Section VoiceIdentificationExamples.

Local Open Scope string_scope.

Local Abbreviation C := Demo.collaborators.



End VoiceIdentificationExamples.

(** ** The gallery is only read *)

Create HintDb readonly.

Section Frame.

Context {Image Location Encoding Waveform Embedding : Type}.
Context {C : Collaborators Image Location Encoding Waveform Embedding}.

Lemma readonly_ret {B : Type} (b : B) :
  readonly (@ret Encoding Embedding B b).
Proof. intro st. reflexivity. Qed.

Lemma readonly_bind {A B : Type} (m : @handler Encoding Embedding A)
      (k : A -> @handler Encoding Embedding B) :
  readonly m -> (forall a, readonly (k a)) -> readonly (bind m k).
Proof.
  intros Hm Hk st. unfold bind.
  specialize (Hm st). destruct (m st) as [a st']. simpl in Hm. subst st'.
  apply Hk.
Qed.

Lemma readonly_read_face_data :
  readonly (@read_face_data Encoding Embedding).
Proof. intro st. reflexivity. Qed.

Lemma readonly_read_voice_data :
  readonly (@read_voice_data Encoding Embedding).
Proof. intro st. reflexivity. Qed.

Hint Resolve readonly_ret readonly_bind readonly_read_face_data
     readonly_read_voice_data : readonly.

Lemma readonly_get_available_profiles :
  readonly (@get_available_profiles Encoding Embedding).
Proof. unfold get_available_profiles. auto with readonly. Qed.

Lemma readonly_recognize_face (image_data user_id : string) :
  readonly (recognize_face image_data user_id).
Proof. unfold recognize_face. auto with readonly. Qed.

Lemma readonly_recognize_voice (audio_file : list byte) (user_id : string) :
  readonly (recognize_voice audio_file user_id).
Proof. unfold recognize_voice. auto with readonly. Qed.

Lemma readonly_combined_authentication (mode profile user_id : string)
      (image_data : option string) (audio_file : option (list byte)) :
  readonly (combined_authentication mode profile user_id image_data
                                    audio_file).
Proof.
  unfold combined_authentication.
  apply readonly_bind; [auto with readonly|]. intro fd.
  apply readonly_bind; [auto with readonly|]. intro vd.
  auto with readonly.
Qed.

Lemma readonly_lip_sync_check (video_data : string) (audio_data : list byte)
      (duration : Z) :
  readonly (lip_sync_check video_data audio_data duration).
Proof. unfold lip_sync_check. auto with readonly. Qed.

Hint Resolve readonly_get_available_profiles readonly_recognize_face
     readonly_recognize_voice readonly_combined_authentication
     readonly_lip_sync_check : readonly.

Lemma readonly_dispatch (r : request) : readonly (dispatch r).
Proof. destruct r; simpl; auto with readonly. Qed.

Lemma readonly_serve (requests : list request) : readonly (serve requests).
Proof.
  induction requests as [|r rest IH]; simpl.
  - auto with readonly.
  - apply readonly_bind; [apply readonly_dispatch|]. intro b.
    apply readonly_bind; [exact IH|]. auto with readonly.
Qed.

(** Start-up is the one writer: it replaces both galleries. *)
Lemma load_models_replaces_gallery (face_pkl : dict Encoding)
      (voice_pkl : dict Embedding) (st : store) :
  snd (load_models (Some face_pkl) (Some voice_pkl) st)
  = mkStore face_pkl voice_pkl.
Proof. reflexivity. Qed.

(** C8.  Face identification, voice identification and the combined
    endpoint that runs face and voice verification hand back the store of
    face and voice templates exactly as they received it, for every
    input; so does any sequence of requests served one after the other. *)
Theorem matching_leaves_gallery_unchanged (st : store) :
  (forall image_data user_id,
      snd (recognize_face image_data user_id st) = st)
  /\ (forall audio_file user_id,
         snd (recognize_voice audio_file user_id st) = st)
  /\ (forall mode profile user_id image_data audio_file,
         snd (combined_authentication mode profile user_id image_data
                                      audio_file st) = st)
  /\ (forall requests, snd (serve requests st) = st).
Proof.
  split; [|split; [|split]]; intros.
  - apply readonly_recognize_face.
  - apply readonly_recognize_voice.
  - apply readonly_combined_authentication.
  - apply readonly_serve.
Qed.

End Frame.

(** ** Listing the profiles *)

Section Profiles.

Local Open Scope string_scope.

Context {Encoding Embedding : Type}.

(** C9.  Whatever the loaded face and voice galleries, the listing is the
    three entries "Fenny", "George", "Jovin" in that order, each flagged
    with its membership in the face gallery and in the voice gallery, and
    [total_profiles] is 3; so a name is listed exactly when it is one of
    the three, whether or not it is enrolled. *)
Theorem profiles_are_the_three_fixed_names
        (st : @store Encoding Embedding) :
  let entry profile :=
    mkProfile profile
              (dict_mem profile (face_data st))
              (dict_mem profile (voice_data st))
              (mkModes (dict_mem profile (face_data st))
                       (dict_mem profile (voice_data st))
                       (dict_mem profile (face_data st)
                        && dict_mem profile (voice_data st))) in
  get_available_profiles st
  = (mkProfiles [entry "Fenny"; entry "George"; entry "Jovin"] 3, st)
  /\ (forall listed,
         In listed (map pe_name (profiles (fst (get_available_profiles st))))
         <-> listed = "Fenny" \/ listed = "George" \/ listed = "Jovin").
Proof.
  split; [reflexivity|].
  intro listed. simpl. intuition congruence.
Qed.

End Profiles.

(** ** Lip-sync analysis *)

Section LipSync.

Local Open Scope string_scope.

Context {Image Location Encoding Waveform Embedding : Type}.
Context {C : Collaborators Image Location Encoding Waveform Embedding}.

(** C6.  A lip-movement series of fewer than 10 entries makes the analysis
    raise "Insufficient video data for lip sync analysis" whatever the
    audio and the lip gaps are, and the endpoint answers with the
    structured body [success=false], [lip_sync_detected=false],
    [confidence=0.0] carrying that message. *)
Theorem lip_sync_needs_ten_entries (fps : Q)
        (lip_movements : list lip_movement) (audio_content : list byte) :
  (List.length lip_movements < 10)%nat ->
  lip_sync_analysis fps lip_movements audio_content
  = Raised "Insufficient video data for lip sync analysis"
  /\ forall video_data duration (st : @store Encoding Embedding),
      lip_movements_of_video video_data = Ok (fps, lip_movements) ->
      lip_sync_check video_data audio_content duration st
      = (JSONResponse 500
           (mkLipResponse false false 0
              "Error during lip sync analysis: Insufficient video data for lip sync analysis"
              (AnalysisError 0 0 0
                 "Insufficient video data for lip sync analysis")),
         st).
Proof.
  intro Hshort.
  assert (Hraise : lip_sync_analysis fps lip_movements audio_content
                   = Raised "Insufficient video data for lip sync analysis").
  { unfold lip_sync_analysis.
    apply Nat.ltb_lt in Hshort. now rewrite Hshort. }
  split; [exact Hraise|].
  intros video_data duration st Hvideo.
  unfold lip_sync_check, ret. rewrite Hvideo. simpl.
  now rewrite Hraise.
Qed.

(** For a series of at least 10 entries the constructor of the response
    raises on the numpy bool of its content. *)
Lemma lip_sync_analysis_raises (fps : Q) (lip_movements : list lip_movement)
      (audio_content : list byte) :
  (10 <= List.length lip_movements)%nat ->
  lip_sync_analysis fps lip_movements audio_content
  = Raised (TypeError np_bool).
Proof.
  intro Hlen. unfold lip_sync_analysis.
  assert (Hnb : (List.length lip_movements <? 10)%nat = false)
    by (apply Nat.ltb_ge; lia).
  rewrite Hnb. reflexivity.
Qed.

(** C7, the defect.  For every series of at least 10 entries, whatever the
    lip gaps and the audio are, the verdict the analysis computes is never
    returned: the content of the response holds the numpy bool
    [has_significant_movement], building the [JSONResponse] of line 491
    raises [TypeError], and the endpoint answers with the error body of
    lines 520-534, which says [success=false], [lip_sync_detected=false]
    and [confidence=0.0] and whose analysis object has neither variance,
    mean nor flags. *)
Theorem lip_sync_verdict_is_never_returned (fps : Q)
        (lip_movements : list lip_movement) (audio_content : list byte) :
  (10 <= List.length lip_movements)%nat ->
  lip_sync_analysis fps lip_movements audio_content
  = Raised (TypeError np_bool)
  /\ forall video_data duration (st : @store Encoding Embedding),
      lip_movements_of_video video_data = Ok (fps, lip_movements) ->
      lip_sync_check video_data audio_content duration st
      = (JSONResponse 500
           (mkLipResponse false false 0
              ("Error during lip sync analysis: " ++ TypeError np_bool)
              (AnalysisError 0 0 0 (TypeError np_bool))),
         st).
Proof.
  intro Hlen.
  pose proof (lip_sync_analysis_raises fps lip_movements audio_content Hlen)
    as Hraise.
  split; [exact Hraise|].
  intros video_data duration st Hvideo.
  unfold lip_sync_check, ret. rewrite Hvideo. simpl.
  now rewrite Hraise.
Qed.

End LipSync.

Section LipSyncExamples.

Local Open Scope string_scope.

(** A talking mouth (variance 0.0025) with 1001 bytes of audio, for which
    the heuristic of lines 476-487 says detected with confidence 0.95: the
    endpoint answers with the error body. *)
Lemma lip_sync_verdict_is_never_returned_witness :
  (10 <= List.length (Demo.series 30 Demo.gaps_talking))%nat
  /\ 0.001 < Py.np_var Demo.gaps_talking
  /\ (1000 < Z.of_nat (List.length (repeat x00 1001)))%Z
  /\ lip_sync_check (C := Demo.collaborators) "vid-talking"
                    (repeat x00 1001) 4 Demo.gallery
     = (JSONResponse 500
          (mkLipResponse false false 0
             ("Error during lip sync analysis: " ++ TypeError np_bool)
             (AnalysisError 0 0 0 (TypeError np_bool))),
        Demo.gallery).
Proof.
  assert (H : (10 <= List.length (Demo.series 30 Demo.gaps_talking))%nat)
    by (simpl; lia).
  split; [exact H|].
  split; [vm_compute; reflexivity|].
  split; [vm_compute; reflexivity|].
  apply (proj2 (lip_sync_verdict_is_never_returned
                  (C := Demo.collaborators) 30
                  (Demo.series 30 Demo.gaps_talking) (repeat x00 1001) H)).
  reflexivity.
Defined.

Lemma lip_sync_needs_ten_entries_witness :
  (List.length (Demo.series 30 Demo.gaps_short) < 10)%nat
  /\ lip_sync_check (C := Demo.collaborators) "vid-short"
                    (repeat x00 2000) 4 Demo.gallery
     = (JSONResponse 500
          (mkLipResponse false false 0
             "Error during lip sync analysis: Insufficient video data for lip sync analysis"
             (AnalysisError 0 0 0
                "Insufficient video data for lip sync analysis")),
        Demo.gallery).
Proof.
  assert (H : (List.length (Demo.series 30 Demo.gaps_short) < 10)%nat)
    by (simpl; lia).
  split; [exact H|].
  apply (proj2 (lip_sync_needs_ten_entries (C := Demo.collaborators)
                  30 _ (repeat x00 2000) H)).
  reflexivity.
Defined.

End LipSyncExamples.

(** ** Combined authentication *)

Section Authentication.

Local Open Scope string_scope.

Context {Image Location Encoding Waveform Embedding : Type}.
Context {C : Collaborators Image Location Encoding Waveform Embedding}.

(** What the face block does once the sample has yielded a face vector. *)
Lemma face_authentication_of_sample (face_data : dict Encoding)
      (mode profile : string) (image_data : option string)
      (message : string) (encoding : Encoding) :
  Py.str_in mode ["face"; "both"] = true ->
  face_sample image_data encoding ->
  face_authentication face_data mode profile image_data message
  = match dict_get profile face_data with
    | Some known_encoding =>
      let dist := l2_distance encoding known_encoding in
      let similarity := Py.max 0 (1 - dist) * 100 in
      if Py.ltb dist 0.6 then
        (true,
         Some (mkMatch profile (Py.round similarity 2)
                 (if Py.gtb similarity 70 then "high" else "medium")),
         message)
      else
        (false, Some (mkMatch "No match" (Py.round similarity 2) "low"),
         message)
    | None =>
      (false, None,
       message ++ "Profile " ++ profile ++ " not found in face models. ")
    end.
Proof.
  intros Hmode (data & image_array & locations & rest
                & -> & Hdata & Hdec & Hloc & Hne & Henc).
  unfold face_authentication. rewrite Hmode.
  destruct data as [|c data]; [congruence|].
  cbn [Py.str_truthy andb]. rewrite Hdec. cbn [result_bind].
  rewrite Hloc. cbn [result_bind].
  destruct locations as [|l locations]; [congruence|].
  cbn [Py.list_truthy]. rewrite Henc. cbn [result_bind try_except].
  destruct (dict_get profile face_data); [|reflexivity].
  cbv zeta. now destruct (Py.ltb _ _).
Qed.

(** What the voice block does once the sample has yielded an embedding. *)
Lemma voice_authentication_of_sample (voice_data : dict Embedding)
      (mode profile : string) (audio_file : option (list byte))
      (message : string) (input_embedding : Embedding) :
  Py.str_in mode ["voice"; "both"] = true ->
  voice_sample audio_file input_embedding ->
  voice_authentication voice_data mode profile audio_file message
  = match dict_get profile voice_data with
    | Some stored_embedding =>
      let similarity :=
        cosine_similarity input_embedding stored_embedding in
      let similarity_percent := Py.max 0 (similarity * 100) in
      if Py.geb similarity 0.60 then
        (true,
         Some (mkMatch profile (Py.round similarity_percent 2)
                 (if Py.gtb similarity_percent 75 then "high"
                  else "medium")),
         message)
      else
        (false,
         Some (mkMatch "No match" (Py.round similarity_percent 2) "low"),
         message)
    | None =>
      (false, None,
       message ++ "Profile " ++ profile ++ " not found in voice models. ")
    end.
Proof.
  intros Hmode (content & wav_data & -> & Hpre & Hlen & Hemb).
  unfold voice_authentication. rewrite Hmode, Hpre. cbn [result_bind].
  apply Z.leb_le in Hlen. rewrite Hlen, Hemb. cbn [result_bind try_except].
  destruct (dict_get profile voice_data); [|reflexivity].
  cbv zeta. now destruct (Py.geb _ _).
Qed.

(** The face block sets [face_success] exactly when face verification
    succeeds in a mode that runs it. *)
Lemma face_success_iff (face_data : dict Encoding) (mode profile : string)
      (image_data : option string) (message : string) :
  fst (fst (face_authentication face_data mode profile image_data message))
  = true
  <-> Py.str_in mode ["face"; "both"] = true
      /\ face_verified face_data profile image_data.
Proof.
  split.
  - unfold face_authentication.
    destruct image_data as [data|]; [|discriminate].
    destruct (Py.str_in mode ["face"; "both"]); [|discriminate].
    destruct (Py.str_truthy data) eqn:Hdata; [|discriminate].
    cbn [andb].
    destruct (decode_base64_image data) as [image_array|] eqn:Hdec;
      [|discriminate].
    cbn [result_bind].
    destruct (face_locations image_array) as [locations|] eqn:Hloc;
      [|discriminate].
    cbn [result_bind].
    destruct locations as [|l locations]; [discriminate|].
    cbn [Py.list_truthy].
    destruct (face_encodings image_array (l :: locations))
      as [[|encoding rest]|] eqn:Henc; try discriminate.
    cbn [result_bind try_except].
    destruct (dict_get profile face_data) as [known|] eqn:Hget;
      [|discriminate].
    cbv zeta.
    destruct (Py.ltb (l2_distance encoding known) 0.6) eqn:Hlt;
      [|discriminate].
    intros _. split; [reflexivity|].
    exists encoding, known. split; [|split].
    + exists data, image_array, (l :: locations), rest.
      repeat split; try assumption; try discriminate.
      intros ->. discriminate.
    + exact Hget.
    + now apply PyFacts.ltb_lt.
  - intros [Hmode (encoding & known & Hsample & Hget & Hlt)].
    rewrite (face_authentication_of_sample _ _ _ _ _ _ Hmode Hsample), Hget.
    apply PyFacts.ltb_lt in Hlt. cbv zeta. now rewrite Hlt.
Qed.

(** The voice block sets [voice_success] exactly when voice verification
    succeeds in a mode that runs it. *)
Lemma voice_success_iff (voice_data : dict Embedding)
      (mode profile : string) (audio_file : option (list byte))
      (message : string) :
  fst (fst (voice_authentication voice_data mode profile audio_file
                                 message)) = true
  <-> Py.str_in mode ["voice"; "both"] = true
      /\ voice_verified voice_data profile audio_file.
Proof.
  split.
  - unfold voice_authentication.
    destruct audio_file as [content|]; [|discriminate].
    destruct (Py.str_in mode ["voice"; "both"]); [|discriminate].
    destruct (preprocess_wav content) as [wav_data|] eqn:Hpre;
      [|discriminate].
    cbn [result_bind].
    destruct (16000 <=? wav_len wav_data)%Z eqn:Hlen; [|discriminate].
    destruct (embed_utterance wav_data) as [input|] eqn:Hemb;
      [|discriminate].
    cbn [result_bind try_except].
    destruct (dict_get profile voice_data) as [stored|] eqn:Hget;
      [|discriminate].
    cbv zeta.
    destruct (Py.geb (cosine_similarity input stored) 0.60) eqn:Hge;
      [|discriminate].
    intros _. split; [reflexivity|].
    exists input, stored. split; [|split].
    + exists content, wav_data.
      repeat split; try assumption. now apply Z.leb_le.
    + exact Hget.
    + now apply PyFacts.geb_ge.
  - intros [Hmode (input & stored & Hsample & Hget & Hge)].
    rewrite (voice_authentication_of_sample _ _ _ _ _ _ Hmode Hsample), Hget.
    apply PyFacts.geb_ge in Hge. cbv zeta. now rewrite Hge.
Qed.

(** What the voice block leaves for [json.dumps] once the sample has
    yielded an embedding. *)
Lemma voice_match_scalars_of_sample (voice_data : dict Embedding)
      (mode profile : string) (audio_file : option (list byte))
      (input_embedding : Embedding) :
  Py.str_in mode ["voice"; "both"] = true ->
  voice_sample audio_file input_embedding ->
  voice_match_scalars voice_data mode profile audio_file
  = match dict_get profile voice_data with
    | Some stored_embedding =>
      max0_scalars
        (result_type (embedding_dtype input_embedding)
                     (embedding_dtype stored_embedding))
        (cosine_similarity input_embedding stored_embedding * 100)
    | None => []
    end.
Proof.
  intros Hmode (content & wav_data & -> & Hpre & Hlen & Hemb).
  unfold voice_match_scalars. rewrite Hmode, Hpre. cbn [result_bind].
  apply Z.leb_le in Hlen. rewrite Hlen, Hemb. cbn [result_bind try_except].
  now destruct (dict_get profile voice_data).
Qed.

(** The content holds no numpy scalar of the voice block, or exactly one,
    the similarity of the record. *)
Lemma voice_match_scalars_cases (voice_data : dict Embedding)
      (mode profile : string) (audio_file : option (list byte)) :
  voice_match_scalars voice_data mode profile audio_file = []
  \/ exists input_embedding stored_embedding,
      Py.str_in mode ["voice"; "both"] = true
      /\ voice_sample audio_file input_embedding
      /\ dict_get profile voice_data = Some stored_embedding
      /\ 0 < cosine_similarity input_embedding stored_embedding
      /\ voice_match_scalars voice_data mode profile audio_file
         = [np_float (result_type (embedding_dtype input_embedding)
                                  (embedding_dtype stored_embedding))].
Proof.
  unfold voice_match_scalars.
  destruct audio_file as [content|]; [|now left].
  destruct (Py.str_in mode ["voice"; "both"]); [|now left].
  destruct (preprocess_wav content) as [wav_data|] eqn:Hpre; [|now left].
  cbn [result_bind].
  destruct (16000 <=? wav_len wav_data)%Z eqn:Hlen; [|now left].
  destruct (embed_utterance wav_data) as [input|] eqn:Hemb; [|now left].
  cbn [result_bind try_except].
  destruct (dict_get profile voice_data) as [stored|] eqn:Hget; [|now left].
  cbv zeta. unfold max0_scalars.
  destruct (Py.gtb (cosine_similarity input stored * 100) 0) eqn:Hpos;
    [|now left].
  right. exists input, stored.
  split; [reflexivity|]. split.
  - exists content, wav_data. repeat split; try assumption.
    now apply Z.leb_le.
  - split; [reflexivity|]. split; [|reflexivity].
    apply PyFacts.gtb_gt in Hpos. lra.
Qed.

Lemma result_type_float32 (a b : dtype) :
  result_type a b = float32 <-> a = float32 /\ b = float32.
Proof. destruct a, b; cbn; intuition congruence. Qed.

(** How the endpoint answers: with the exception of line 376 when the voice
    block ran and left a single-precision similarity in [results], with
    [results] under status 200 otherwise. *)
Lemma combined_authentication_answer (mode profile user_id : string)
      (image_data : option string) (audio_file : option (list byte))
      (st : @store Encoding Embedding) :
  (Py.str_in mode ["voice"; "both"] = true
   /\ voice_record_unserializable (voice_data st) profile audio_file
   /\ combined_authentication mode profile user_id image_data audio_file st
      = (HTTPException 500
           ("Authentication failed: " ++ TypeError (np_float float32)),
         st))
  \/ (~ (Py.str_in mode ["voice"; "both"] = true
         /\ voice_record_unserializable (voice_data st) profile audio_file)
      /\ combined_authentication mode profile user_id image_data audio_file
                                 st
         = (JSONResponse 200
              (authentication_results (face_data st) (voice_data st) mode
                                      profile image_data audio_file),
            st)).
Proof.
  unfold combined_authentication, bind, read_face_data, read_voice_data, ret.
  cbn [fst snd].
  destruct (voice_match_scalars_cases (voice_data st) mode profile
                                      audio_file)
    as [Hnone | (input & stored & Hmode & Hsample & Hget & Hpos & Hone)].
  - right. rewrite Hnone. split; [|reflexivity].
    intros [Hmode (input & stored & Hsample & Hget & Hi & Hs & Hpos)].
    rewrite (voice_match_scalars_of_sample _ _ _ _ _ Hmode Hsample), Hget
      in Hnone.
    unfold max0_scalars in Hnone.
    replace (Py.gtb (cosine_similarity input stored * 100) 0) with true
      in Hnone by (symmetry; apply PyFacts.gtb_gt; lra).
    discriminate.
  - rewrite Hone.
    destruct (result_type (embedding_dtype input) (embedding_dtype stored))
      eqn:Htype.
    + left. apply result_type_float32 in Htype as [Hi Hs].
      split; [exact Hmode|]. split; [|reflexivity].
      now exists input, stored.
    + right. split; [|reflexivity].
      intros [_ (input' & stored' & Hsample' & Hget' & Hi & Hs & _)].
      assert (input' = input).
      { destruct Hsample as (c & w & -> & Hp & _ & He),
                 Hsample' as (c' & w' & Heq & Hp' & _ & He').
        injection Heq as <-. rewrite Hp in Hp'. injection Hp' as <-.
        rewrite He in He'. now injection He'. }
      subst input'. rewrite Hget in Hget'. injection Hget' as <-.
      rewrite Hi, Hs in Htype. discriminate.
Qed.

(** The verdict in [results], mode by mode. *)
Lemma authentication_results_passed (face_data : dict Encoding)
      (voice_data : dict Embedding) (mode profile : string)
      (image_data : option string) (audio_file : option (list byte)) :
  let results :=
    authentication_results face_data voice_data mode profile image_data
                           audio_file in
  success results = authentication_passed results
  /\ (authentication_passed results = true
      <-> (mode = "face" /\ face_verified face_data profile image_data)
          \/ (mode = "voice"
              /\ voice_verified voice_data profile audio_file)
          \/ (mode = "both"
              /\ face_verified face_data profile image_data
              /\ voice_verified voice_data profile audio_file)).
Proof.
  cbv zeta. unfold authentication_results.
  pose proof (face_success_iff face_data mode profile image_data "")
    as Hface.
  destruct (face_authentication face_data mode profile image_data "")
    as [[face_success face_record] diagnostics].
  pose proof (voice_success_iff voice_data mode profile audio_file
                                diagnostics) as Hvoice.
  destruct (voice_authentication voice_data mode profile audio_file
                                 diagnostics)
    as [[voice_success voice_record] diagnostics'].
  cbn [success authentication_passed fst] in *.
  split; [reflexivity|].
  unfold fuse.
  destruct (String.eqb mode "face") eqn:Ef.
  { apply String.eqb_eq in Ef. subst mode. rewrite Hface.
    split.
    - intros [_ H]. left. now split.
    - intros [[_ H] | [[E _] | [E _]]]; try discriminate.
      split; [reflexivity | exact H]. }
  destruct (String.eqb mode "voice") eqn:Ev.
  { apply String.eqb_eq in Ev. subst mode. rewrite Hvoice.
    split.
    - intros [_ H]. right. left. now split.
    - intros [[E _] | [[_ H] | [E _]]]; try discriminate.
      split; [reflexivity | exact H]. }
  destruct (String.eqb mode "both") eqn:Eb.
  { apply String.eqb_eq in Eb. subst mode.
    rewrite andb_true_iff, Hface, Hvoice.
    split.
    - intros [[_ Hf] [_ Hv]]. right. right. now repeat split.
    - intros [[E _] | [[E _] | [_ [Hf Hv]]]]; try discriminate.
      now repeat split. }
  apply String.eqb_neq in Ef, Ev, Eb.
  split; [discriminate|].
  intros [[E _] | [[E _] | [E _]]]; contradiction.
Qed.

(** C1, the defect.  In mode "both", when face verification succeeds and
    voice verification succeeds on single-precision vectors (the element
    type of the embeddings the voice encoder returns), the verdict
    [authentication_passed = true] is computed and never returned:
    [results] holds the similarity of the voice record as a single-precision
    numpy scalar, building the [JSONResponse] of line 372 raises
    [TypeError], and the endpoint answers with the exception of line 376,
    status 500. *)
Theorem both_mode_pass_is_not_returned (profile user_id : string)
        (image_data : option string) (audio_file : option (list byte))
        (st : @store Encoding Embedding)
        (input_embedding stored_embedding : Embedding) :
  face_verified (face_data st) profile image_data ->
  voice_sample audio_file input_embedding ->
  dict_get profile (voice_data st) = Some stored_embedding ->
  0.60 <= cosine_similarity input_embedding stored_embedding ->
  embedding_dtype input_embedding = float32 ->
  embedding_dtype stored_embedding = float32 ->
  authentication_passed
    (authentication_results (face_data st) (voice_data st) "both" profile
                            image_data audio_file) = true
  /\ combined_authentication "both" profile user_id image_data audio_file st
     = (HTTPException 500
          "Authentication failed: Object of type float32 is not JSON serializable",
        st).
Proof.
  intros Hface Hsample Hget Hsim Hi Hs.
  split.
  - apply authentication_results_passed. right. right.
    split; [reflexivity|]. split; [exact Hface|].
    now exists input_embedding, stored_embedding.
  - destruct (combined_authentication_answer "both" profile user_id
                image_data audio_file st)
      as [(_ & _ & Hanswer) | [Hnot _]]; [exact Hanswer|].
    exfalso. apply Hnot. split; [reflexivity|].
    exists input_embedding, stored_embedding.
    repeat split; try assumption. lra.
Qed.

(** C2, as the code has it.  When the face block runs on a sample whose
    first face vector is [encoding] and the profile has a face template:
    below distance 0.6 the outcome is a positive record naming the
    profile, above or at 0.6 a record named "No match" with confidence
    "low"; either record carries the score [max(0, 1 - distance) * 100]
    rounded to two decimals, and the positive one has confidence "high"
    when the unrounded score exceeds 70 and "medium" otherwise.  At
    distance 0 the outcome is matched, 100, "high". *)
Theorem face_verification_outcome (face_data : dict Encoding)
        (mode profile : string) (image_data : option string)
        (message : string) (encoding known_encoding : Encoding) :
  Py.str_in mode ["face"; "both"] = true ->
  face_sample image_data encoding ->
  dict_get profile face_data = Some known_encoding ->
  let dist := l2_distance encoding known_encoding in
  let score := Py.max 0 (1 - dist) * 100 in
  (dist < 0.6 ->
   face_authentication face_data mode profile image_data message
   = (true,
      Some (mkMatch profile (Py.round score 2)
              (if Py.gtb score 70 then "high" else "medium")),
      message))
  /\ (0.6 <= dist ->
      face_authentication face_data mode profile image_data message
      = (false, Some (mkMatch "No match" (Py.round score 2) "low"),
         message))
  /\ (dist == 0 ->
      exists record,
        face_authentication face_data mode profile image_data message
        = (true, Some record, message)
        /\ name record = profile
        /\ similarity record == 100
        /\ confidence record = "high").
Proof.
  intros Hmode Hsample Hget dist score.
  rewrite (face_authentication_of_sample _ _ _ _ _ _ Hmode Hsample), Hget.
  cbv zeta. fold dist. fold score.
  split; [|split].
  - intro Hlt. apply PyFacts.ltb_lt in Hlt. now rewrite Hlt.
  - intro Hge. apply PyFacts.ltb_ge in Hge. now rewrite Hge.
  - intro Hzero.
    assert (Hlt : Py.ltb dist 0.6 = true)
      by (apply PyFacts.ltb_lt; rewrite Hzero; reflexivity).
    assert (Hscore : score == 100).
    { unfold score, Py.max.
      replace (Py.ltb 0 (1 - dist)) with true
        by (symmetry; apply PyFacts.ltb_lt; rewrite Hzero; reflexivity).
      rewrite Hzero. reflexivity. }
    rewrite Hlt. eexists. split; [reflexivity|].
    cbn [name similarity confidence].
    split; [reflexivity|]. split.
    + transitivity (Py.round 100 2); [|reflexivity].
      apply PyFacts.round_proper; [exact Hscore | reflexivity].
    + replace (Py.gtb score 70) with true; [reflexivity|].
      symmetry. apply PyFacts.gtb_gt. rewrite Hscore. reflexivity.
Qed.

(** The two records of [results] are the ones the blocks wrote. *)
Lemma authentication_results_records (face_data : dict Encoding)
      (voice_data : dict Embedding) (mode profile : string)
      (image_data : option string) (audio_file : option (list byte)) :
  let results :=
    authentication_results face_data voice_data mode profile image_data
                           audio_file in
  let face_block :=
    face_authentication face_data mode profile image_data "" in
  face_match results = snd (fst face_block)
  /\ voice_match results
     = snd (fst (voice_authentication voice_data mode profile audio_file
                                      (snd face_block))).
Proof.
  cbv zeta. unfold authentication_results.
  destruct (face_authentication face_data mode profile image_data "")
    as [[face_success face_record] diagnostics].
  cbn [fst snd].
  destruct (voice_authentication voice_data mode profile audio_file
                                 diagnostics)
    as [[voice_success voice_record] diagnostics'].
  split; reflexivity.
Qed.

(** C5, as the code has it.  The endpoint answers with a body at least
    when the voice sample or the profile's voice template is a
    double-precision vector.  In every body it answers with: whenever a mode
    runs the face block on a sample that yields a face vector and the
    profile has a face template, [face_match] holds one record, naming the
    profile when the distance is below 0.6 and an explicit "No match" of
    confidence "low" otherwise; likewise [voice_match] whenever a mode runs
    the voice block on a sample that yields an embedding and the profile
    has a voice template. *)
Theorem verification_materializes_outcome (mode profile user_id : string)
        (image_data : option string) (audio_file : option (list byte))
        (st : @store Encoding Embedding) :
  ((forall input_embedding stored_embedding,
       voice_sample audio_file input_embedding ->
       dict_get profile (voice_data st) = Some stored_embedding ->
       embedding_dtype input_embedding = float64
       \/ embedding_dtype stored_embedding = float64) ->
   exists body,
     combined_authentication mode profile user_id image_data audio_file st
     = (JSONResponse 200 body, st))
  /\ forall body,
      combined_authentication mode profile user_id image_data audio_file st
      = (JSONResponse 200 body, st) ->
      (forall encoding known_encoding,
          Py.str_in mode ["face"; "both"] = true ->
          face_sample image_data encoding ->
          dict_get profile (face_data st) = Some known_encoding ->
          exists record,
            face_match body = Some record
            /\ ((l2_distance encoding known_encoding < 0.6
                 /\ name record = profile)
                \/ (0.6 <= l2_distance encoding known_encoding
                    /\ name record = "No match"
                    /\ confidence record = "low")))
      /\ (forall input_embedding stored_embedding,
             Py.str_in mode ["voice"; "both"] = true ->
             voice_sample audio_file input_embedding ->
             dict_get profile (voice_data st) = Some stored_embedding ->
             exists record,
               voice_match body = Some record
               /\ ((0.60 <= cosine_similarity input_embedding
                                              stored_embedding
                    /\ name record = profile)
                   \/ (cosine_similarity input_embedding stored_embedding
                       < 0.60
                       /\ name record = "No match"
                       /\ confidence record = "low"))).
Proof.
  destruct (combined_authentication_answer mode profile user_id image_data
                                           audio_file st)
    as [(_ & (input & stored & Hsample & Hget & Hi & Hs & _) & Hanswer)
       | [_ Hanswer]]; rewrite Hanswer.
  { split.
    - intro Hdouble.
      destruct (Hdouble input stored Hsample Hget) as [H | H]; congruence.
    - intros body Hbody. discriminate. }
  split; [intros _; eexists; reflexivity|].
  intros body Hbody. injection Hbody as <-.
  destruct (authentication_results_records
              (face_data st) (voice_data st) mode profile image_data
              audio_file) as [Hfm Hvm].
  cbv zeta in Hfm, Hvm. rewrite Hfm, Hvm. clear Hfm Hvm Hanswer.
  split.
  - intros encoding known Hmode Hsample Hget.
    rewrite (face_authentication_of_sample _ _ _ _ _ _ Hmode Hsample), Hget.
    cbv zeta.
    destruct (PyFacts.ltb_cases (l2_distance encoding known) 0.6)
      as [[Hb Hcmp] | [Hb Hcmp]]; rewrite Hb; cbn [fst snd];
      eexists; (split; [reflexivity|]).
    + left. now split.
    + right. now repeat split.
  - intros input stored Hmode Hsample Hget.
    rewrite (voice_authentication_of_sample _ _ _ _ _ _ Hmode Hsample), Hget.
    cbv zeta.
    destruct (Py.geb (cosine_similarity input stored) 0.60) eqn:Hb;
      cbn [fst snd]; eexists; (split; [reflexivity|]).
    + left. split; [now apply PyFacts.geb_ge | reflexivity].
    + right. split; [now apply PyFacts.geb_lt | now split].
Qed.

(** The face block reads the encoder's outcome through its first vector
    only. *)
Lemma face_authentication_same_first
      (fe : Image -> list Location -> result (list Encoding))
      (face_data : dict Encoding) (mode profile : string)
      (image_data : option string) (message : string) :
  (forall image_array locations,
      same_first (face_encodings image_array locations)
                 (fe image_array locations)) ->
  face_authentication (C := with_face_encodings fe) face_data mode profile
                      image_data message
  = face_authentication face_data mode profile image_data message.
Proof.
  intro Hsame. unfold face_authentication.
  destruct image_data as [data|]; [|reflexivity].
  destruct (Py.str_in mode ["face"; "both"] && Py.str_truthy data);
    [|reflexivity].
  cbn [decode_base64_image face_locations face_encodings l2_distance
       with_face_encodings].
  destruct (decode_base64_image data) as [image_array|]; [|reflexivity].
  cbn [result_bind].
  destruct (face_locations image_array) as [locations|]; [|reflexivity].
  cbn [result_bind].
  destruct (Py.list_truthy locations); [|reflexivity].
  specialize (Hsame image_array locations).
  destruct (face_encodings image_array locations) as [[|e rest]|],
           (fe image_array locations) as [[|e' rest']|];
    cbn [same_first] in Hsame; try contradiction; subst; reflexivity.
Qed.

(** C10.  When the face block runs on an image in which the encoder finds
    the vectors [encoding :: rest] and the profile has the template
    [known_encoding], the outcome is the verdict on the L2 distance between
    [encoding], the first vector, and the template: a positive record below
    0.6, a "No match" record otherwise, with the score of that distance.
    The other vectors [rest] have no effect: the outcome does not mention
    them, and replacing the encoder by any other that agrees with it on the
    first vector it returns for every image (and on failing, and on
    returning none) leaves the answer of the endpoint to the request
    unchanged. *)
Theorem only_first_face_encoding_matters (mode profile data : string)
        (image_array : Image) (locations : list Location)
        (encoding : Encoding) (rest : list Encoding)
        (known_encoding : Encoding) (st : @store Encoding Embedding) :
  Py.str_in mode ["face"; "both"] = true ->
  data <> "" ->
  decode_base64_image data = Ok image_array ->
  face_locations image_array = Ok locations ->
  locations <> [] ->
  face_encodings image_array locations = Ok (encoding :: rest) ->
  dict_get profile (face_data st) = Some known_encoding ->
  let dist := l2_distance encoding known_encoding in
  let score := Py.max 0 (1 - dist) * 100 in
  (forall message,
      face_authentication (face_data st) mode profile (Some data) message
      = if Py.ltb dist 0.6 then
          (true,
           Some (mkMatch profile (Py.round score 2)
                   (if Py.gtb score 70 then "high" else "medium")),
           message)
        else
          (false, Some (mkMatch "No match" (Py.round score 2) "low"),
           message))
  /\ (forall fe : Image -> list Location -> result (list Encoding),
         (forall image_array locations,
             same_first (face_encodings image_array locations)
                        (fe image_array locations)) ->
         forall user_id audio_file,
           combined_authentication (C := with_face_encodings fe) mode
                                   profile user_id (Some data) audio_file st
           = combined_authentication mode profile user_id (Some data)
                                     audio_file st).
Proof.
  intros Hmode Hdata Hdec Hloc Hne Henc Hget dist score.
  split.
  - intro message.
    assert (Hsample : face_sample (Some data) encoding)
      by (exists data, image_array, locations, rest; now repeat split).
    rewrite (face_authentication_of_sample _ _ _ _ _ _ Hmode Hsample), Hget.
    reflexivity.
  - intros fe Hsame user_id audio_file.
    unfold combined_authentication, bind, read_face_data, read_voice_data,
      ret, authentication_results.
    rewrite (face_authentication_same_first fe _ _ _ _ _ Hsame).
    reflexivity.
Qed.

End Authentication.

Section AuthenticationExamples.

Local Open Scope string_scope.

Local Abbreviation C := Demo.collaborators.

Lemma face_sample_near : face_sample (C := C) (Some "img-near") [0.3; 0.4].
Proof.
  exists "img-near", [[0.3; 0.4]], [0%nat], [].
  repeat split; try reflexivity; discriminate.
Defined.

Lemma voice_sample_first :
  voice_sample (C := C) (Some [x01; x00]) [3; 4].
Proof.
  exists [x01; x00], (16000%Z, [3; 4]).
  repeat split; reflexivity.
Defined.

(** George's face at distance 0.5 and his voice at similarity 0.6, on
    single-precision embeddings: the request that should pass is answered
    with status 500. *)
Lemma both_mode_pass_is_not_returned_witness :
  face_verified (C := Demo.single_precision) (face_data Demo.gallery)
                "George" (Some "img-near")
  /\ voice_verified (C := Demo.single_precision) (voice_data Demo.gallery)
                    "George" (Some [x01; x00])
  /\ combined_authentication (C := Demo.single_precision) "both" "George"
                             "u" (Some "img-near") (Some [x01; x00])
                             Demo.gallery
     = (HTTPException 500
          "Authentication failed: Object of type float32 is not JSON serializable",
        Demo.gallery).
Proof.
  assert (Hface : face_verified (C := Demo.single_precision)
                                (face_data Demo.gallery) "George"
                                (Some "img-near")).
  { exists [0.3; 0.4], [0; 0]. split.
    - exists "img-near", [[0.3; 0.4]], [0%nat], [].
      repeat split; try reflexivity; discriminate.
    - split; [reflexivity | vm_compute; reflexivity]. }
  assert (Hsample : voice_sample (C := Demo.single_precision)
                                 (Some [x01; x00]) [3; 4]).
  { exists [x01; x00], (16000%Z, [3; 4]). repeat split; reflexivity. }
  assert (Hsim : 0.60 <= cosine_similarity (Collaborators :=
                                              Demo.single_precision)
                                           [3; 4] [1; 0])
    by (vm_compute; discriminate).
  split; [exact Hface|]. split.
  - exists [3; 4], [1; 0]. split; [exact Hsample|].
    split; [reflexivity | exact Hsim].
  - exact (proj2 (both_mode_pass_is_not_returned
                    (C := Demo.single_precision) "George" "u"
                    (Some "img-near") (Some [x01; x00]) Demo.gallery
                    [3; 4] [1; 0] Hface Hsample eq_refl Hsim
                    eq_refl eq_refl)).
Defined.

Lemma face_verification_outcome_witness :
  Py.str_in "face" ["face"; "both"] = true
  /\ face_sample (C := C) (Some "img-near") [0.3; 0.4]
  /\ dict_get "George" (face_data Demo.gallery) = Some [0; 0]
  /\ l2_distance (Collaborators := C) [0.3; 0.4] [0; 0] < 0.6
  /\ fst (face_authentication (C := C) (face_data Demo.gallery) "face"
                              "George" (Some "img-near") "")
     = (true,
        Some (mkMatch "George"
                (Py.round
                   (Py.max 0
                      (1 - l2_distance (Collaborators := C) [0.3; 0.4] [0; 0])
                    * 100) 2)
                "medium")).
Proof.
  assert (Hlt : l2_distance (Collaborators := C) [0.3; 0.4] [0; 0] < 0.6)
    by (vm_compute; reflexivity).
  split; [reflexivity|].
  split; [exact face_sample_near|].
  split; [reflexivity|].
  split; [exact Hlt|].
  rewrite (proj1 (face_verification_outcome
                    (C := C) (face_data Demo.gallery) "face" "George"
                    (Some "img-near") "" [0.3; 0.4] [0; 0]
                    eq_refl face_sample_near eq_refl) Hlt).
  reflexivity.
Defined.

(** At distance 1/3 the score is 66.666..., and the record says 66.67. *)
Lemma face_verification_similarity_is_rounded :
  l2_distance (Collaborators := C) [1 # 3; 0] [0; 0] == 1 # 3
  /\ Py.max 0 (1 - l2_distance (Collaborators := C) [1 # 3; 0] [0; 0]) * 100
     == 200 # 3
  /\ exists record,
      face_authentication (C := C) (face_data Demo.gallery) "face"
                          "George" (Some "img-third") ""
      = (true, Some record, "")
      /\ name record = "George"
      /\ similarity record == 66.67
      /\ ~ similarity record
           == Py.max 0
                (1 - l2_distance (Collaborators := C) [1 # 3; 0] [0; 0])
              * 100.
Proof.
  split; [vm_compute; reflexivity|].
  split; [vm_compute; reflexivity|].
  eexists. split; [vm_compute; reflexivity|].
  cbn [name similarity].
  split; [reflexivity|].
  split; [vm_compute; reflexivity|].
  vm_compute. discriminate.
Qed.

(** A face at distance 0.8 and a voice at similarity -1: both negative
    outcomes are in the body. *)
Lemma verification_materializes_outcome_witness :
  exists body,
    combined_authentication (C := C) "both" "George" "u" (Some "img-far")
                            (Some [x03; x00]) Demo.gallery
    = (JSONResponse 200 body, Demo.gallery)
    /\ (exists record,
           face_match body = Some record /\ name record = "No match")
    /\ (exists record,
           voice_match body = Some record /\ name record = "No match").
Proof.
  destruct (verification_materializes_outcome
              (C := C) "both" "George" "u" (Some "img-far")
              (Some [x03; x00]) Demo.gallery)
    as [Hreturned Hrecords].
  destruct Hreturned as [body Hbody]; [intros; now left|].
  exists body. split; [exact Hbody|].
  destruct (Hrecords body Hbody) as [Hface Hvoice].
  split.
  - destruct (Hface [0.8; 0] [0; 0]) as (record & Hrecord & Hcases).
    + reflexivity.
    + exists "img-far", [[0.8; 0]], [0%nat], [].
      repeat split; try reflexivity; discriminate.
    + reflexivity.
    + exists record. split; [exact Hrecord|].
      destruct Hcases as [[Hlt _] | [_ [Hname _]]]; [|exact Hname].
      exfalso. revert Hlt. vm_compute. discriminate.
  - destruct (Hvoice [-1; 0] [1; 0]) as (record & Hrecord & Hcases).
    + reflexivity.
    + exists [x03; x00], (16000%Z, [-1; 0]). repeat split; reflexivity.
    + reflexivity.
    + exists record. split; [exact Hrecord|].
      destruct Hcases as [[Hge _] | [_ [Hname _]]]; [|exact Hname].
      exfalso. revert Hge. vm_compute. intro H. now apply H.
Defined.

(** George has both templates, yet an image without a face and a clip of
    8000 samples leave both outcome records empty. *)
Lemma verification_without_sample_has_no_record :
  dict_get "George" (face_data Demo.gallery) = Some [0; 0]
  /\ dict_get "George" (voice_data Demo.gallery) = Some [1; 0]
  /\ combined_authentication (C := C) "both" "George" "u"
                             (Some "img-empty") (Some [x01]) Demo.gallery
     = (JSONResponse 200
          (mkAuthResponse false
             "No face detected in image. Audio too short or unclear. "
             None None false),
        Demo.gallery).
Proof.
  repeat split.
Qed.

(** An image with two faces, George's first and a stranger's second: the
    verdict is the one on George's vector, and an encoder that drops the
    second face gives the same answer. *)
Lemma only_first_face_encoding_matters_witness :
  face_encodings (Collaborators := C) [[0; 0]; [5; 5]] [0%nat; 1%nat]
  = Ok [[0; 0]; [5; 5]]
  /\ face_authentication (C := C) (face_data Demo.gallery) "face" "George"
                         (Some "img-two") ""
     = (true, Some (mkMatch "George" (Py.round 100 2) "high"), "")
  /\ combined_authentication
       (C := with_face_encodings (C := C) Demo.first_face_only)
       "face" "George" "u" (Some "img-two") None Demo.gallery
     = combined_authentication (C := C) "face" "George" "u"
                               (Some "img-two") None Demo.gallery.
Proof.
  assert (Hne : "img-two" <> "") by discriminate.
  assert (Hloc : [0%nat; 1%nat] <> []) by discriminate.
  destruct (only_first_face_encoding_matters
              (C := C) "face" "George" "img-two" [[0; 0]; [5; 5]]
              [0%nat; 1%nat] [0; 0] [[5; 5]] [0; 0] Demo.gallery
              eq_refl Hne eq_refl eq_refl Hloc eq_refl eq_refl)
    as [Hfirst Hrest].
  split; [reflexivity|]. split.
  - rewrite Hfirst. reflexivity.
  - apply Hrest.
    intros image_array locations.
    unfold Demo.first_face_only. cbn [face_encodings C Demo.collaborators].
    destruct (map (fun i => nth i image_array []) locations);
      cbn [same_first firstn]; reflexivity.
Defined.

End AuthenticationExamples.

(** * Further properties of the service *)

(** ** Rounding and the numpy statistics *)

Module NumFacts.

Lemma round_half_even_mono (x y : Q) :
  x <= y -> (Py.round_half_even x <= Py.round_half_even y)%Z.
Proof.
  intro Hxy. unfold Py.round_half_even.
  pose proof (Qfloor_resp_le _ _ Hxy) as Hf.
  destruct (Z.eq_dec (Qfloor x) (Qfloor y)) as [Heq | Hneq].
  - rewrite <- Heq.
    destruct (Qcompare_spec (x - inject_Z (Qfloor x)) (1 # 2)) as [Hx|Hx|Hx],
             (Qcompare_spec (y - inject_Z (Qfloor x)) (1 # 2)) as [Hy|Hy|Hy];
      try (destruct (Z.even (Qfloor x)); lia);
      exfalso; lra.
  - destruct (Qcompare (x - inject_Z (Qfloor x)) (1 # 2)),
             (Qcompare (y - inject_Z (Qfloor y)) (1 # 2));
      destruct (Z.even (Qfloor x)), (Z.even (Qfloor y)); lia.
Qed.

Lemma scale_pos (ndigits : nat) : 0 < inject_Z (10 ^ Z.of_nat ndigits).
Proof.
  replace 0 with (inject_Z 0) by reflexivity. rewrite <- Zlt_Qlt.
  apply Z.pow_pos_nonneg; lia.
Qed.

(** Rounding keeps the order of its arguments. *)
Lemma round_mono (x y : Q) (ndigits : nat) :
  x <= y -> Py.round x ndigits <= Py.round y ndigits.
Proof.
  intro Hxy. unfold Py.round.
  pose proof (scale_pos ndigits) as Hs.
  set (s := inject_Z (10 ^ Z.of_nat ndigits)) in *.
  apply Qmult_le_compat_r.
  - rewrite <- Zle_Qle. apply round_half_even_mono.
    apply Qmult_le_compat_r; [exact Hxy | now apply Qlt_le_weak].
  - apply Qinv_le_0_compat. now apply Qlt_le_weak.
Qed.

Lemma sum_from (l : list Q) (a : Q) :
  fold_left Qplus l a == a + Py.sum l.
Proof.
  unfold Py.sum. revert a.
  induction l as [|x l IH]; intro a; simpl.
  - ring.
  - rewrite (IH (a + x)), (IH (0 + x)). ring.
Qed.

Lemma sum_cons (x : Q) (l : list Q) : Py.sum (x :: l) == x + Py.sum l.
Proof.
  unfold Py.sum at 1. simpl. rewrite sum_from. ring.
Qed.

Lemma sum_nonneg (l : list Q) :
  Forall (fun x => 0 <= x) l -> 0 <= Py.sum l.
Proof.
  induction 1 as [|x l Hx _ IH].
  - apply Qle_refl.
  - rewrite sum_cons. lra.
Qed.

Lemma sum_all_equal (l : list Q) (c : Q) :
  Forall (fun x => x == c) l ->
  Py.sum l == inject_Z (Z.of_nat (List.length l)) * c.
Proof.
  induction 1 as [|x l Hx _ IH].
  - unfold Py.sum. simpl. ring.
  - cbv beta in Hx. rewrite sum_cons, IH.
    cbn [List.length]. rewrite Nat2Z.inj_succ, <- Z.add_1_r, inject_Z_plus.
    setoid_rewrite Hx. ring.
Qed.

Lemma length_pos (A : Type) (x : A) (l : list A) :
  0 < inject_Z (Z.of_nat (List.length (x :: l))).
Proof.
  replace 0 with (inject_Z 0) by reflexivity. rewrite <- Zlt_Qlt.
  cbn [List.length]. lia.
Qed.

Lemma mean_nonneg (l : list Q) :
  Forall (fun x => 0 <= x) l -> 0 <= Py.np_mean l.
Proof.
  intro H. destruct l as [|x l]; [apply Qle_refl|].
  unfold Py.np_mean.
  apply Qle_shift_div_l; [apply length_pos|].
  rewrite Qmult_0_l. now apply sum_nonneg.
Qed.

(** The population variance is never negative. *)
Lemma var_nonneg (l : list Q) : 0 <= Py.np_var l.
Proof.
  unfold Py.np_var. apply mean_nonneg.
  apply Forall_forall. intros y Hy.
  apply in_map_iff in Hy as (x & <- & _).
  cbv beta. set (d := x - Py.np_mean l). nra.
Qed.

Lemma mean_all_equal (l : list Q) (c : Q) :
  l <> [] -> Forall (fun x => x == c) l -> Py.np_mean l == c.
Proof.
  intros Hne H. destruct l as [|x l]; [congruence|].
  unfold Py.np_mean. rewrite (sum_all_equal _ c H).
  pose proof (length_pos Q x l) as Hpos.
  rewrite Qmult_comm. apply Qdiv_mult_l.
  intro Hz. rewrite Hz in Hpos. now apply Qlt_irrefl in Hpos.
Qed.

(** Equal values have variance 0. *)
Lemma var_all_equal (l : list Q) (c : Q) :
  l <> [] -> Forall (fun x => x == c) l -> Py.np_var l == 0.
Proof.
  intros Hne H. unfold Py.np_var.
  pose proof (mean_all_equal l c Hne H) as Hm.
  apply mean_all_equal.
  - destruct l; [congruence | discriminate].
  - apply Forall_forall. intros y Hy.
    apply in_map_iff in Hy as (x & <- & Hx).
    rewrite Forall_forall in H. specialize (H x Hx). cbv beta in H.
    rewrite Hm, H. ring.
Qed.

End NumFacts.

(** ** Identification: what the matchers return *)

Section MoreIdentification.

Local Open Scope string_scope.

Context {Image Location Encoding Waveform Embedding : Type}.
Context {C : Collaborators Image Location Encoding Waveform Embedding}.

Lemma max0_lower (x : Q) : 0 <= Py.max 0 x.
Proof.
  unfold Py.max.
  destruct (PyFacts.ltb_cases 0 x) as [[-> H] | [-> H]];
    [now apply Qlt_le_weak | apply Qle_refl].
Qed.


Lemma max0_of_pos (x : Q) : 0 < x -> Py.max 0 x = x.
Proof.
  intro H. unfold Py.max. apply PyFacts.ltb_lt in H. now rewrite H.
Qed.

(** A name returned by [match_face] is the name of the first entry of least
    distance, that distance is below the threshold and the score is the
    clamp of that distance. *)
Lemma match_face_some (encoding : Encoding) (face_data : dict Encoding)
      (threshold : Q) (name : string) (score : Q) :
  match_face encoding face_data threshold = (Some name, score) ->
  exists known,
    first_minimum encoding face_data (Some name)
                  (Py.Fin (l2_distance encoding known))
    /\ In (name, known) face_data
    /\ l2_distance encoding known < threshold
    /\ score = Py.max 0 (1 - l2_distance encoding known) * 100.
Proof.
  unfold match_face.
  destruct (match_face_loop_first_minimum encoding face_data)
    as (best & dist & -> & Hmin).
  inversion Hmin as [Hnil | i n known Hi Hle Hlt]; subst; simpl.
  - discriminate.
  - destruct (Py.ltb (l2_distance encoding known) threshold) eqn:Hcmp;
      [|discriminate].
    intro H. injection H as -> <-.
    exists known. split; [exact Hmin|]. split.
    + eapply nth_error_In. exact Hi.
    + split; [now apply PyFacts.ltb_lt | reflexivity].
Qed.

Lemma match_face_score_range_aux (encoding : Encoding)
      (face_data : dict Encoding) (name : string) (score : Q) :
  match_face encoding face_data 0.6 = (Some name, score) -> 40 < score.
Proof.
  intro Hm. apply match_face_some in Hm as (known & _ & _ & Hlt & ->).
  rewrite max0_of_pos; lra.
Qed.

(** The score of [match_face] does not look at the threshold. *)
Lemma match_face_score (encoding : Encoding) (face_data : dict Encoding)
      (threshold : Q) :
  snd (match_face encoding face_data threshold)
  = Py.max0_one_minus (snd (match_face_loop encoding face_data)) * 100.
Proof.
  unfold match_face.
  destruct (match_face_loop encoding face_data) as [best dist].
  now destruct (Py.e_lt dist threshold).
Qed.

(** X1.  Raising the threshold of [match_face] keeps a reported match and
    never changes the score. *)
Theorem match_face_threshold_monotone (encoding : Encoding)
        (face_data : dict Encoding) (t t' : Q) (name : string) :
  t <= t' ->
  fst (match_face encoding face_data t) = Some name ->
  fst (match_face encoding face_data t') = Some name
  /\ snd (match_face encoding face_data t')
     = snd (match_face encoding face_data t).
Proof.
  intros Htt Hname.
  split; [|now rewrite !match_face_score].
  revert Hname. unfold match_face.
  destruct (match_face_loop encoding face_data) as [best [d|]]; simpl.
  - destruct (PyFacts.ltb_cases d t) as [[-> Hd] | [-> Hd]];
      [|discriminate].
    simpl. intros ->.
    replace (Py.ltb d t') with true; [reflexivity|].
    symmetry. apply PyFacts.ltb_lt.
    eapply Qlt_le_trans; [exact Hd | exact Htt].
  - discriminate.
Qed.

(** X2.  The score of [match_face] is never negative; it is at most 100
    when no distance is negative; and a match reported at threshold 0.6
    has a score above 40. *)
Theorem match_face_score_range (encoding : Encoding)
        (face_data : dict Encoding) (threshold : Q) :
  (forall item, In item face_data ->
                0 <= l2_distance encoding (snd item)) ->
  0 <= snd (match_face encoding face_data threshold) <= 100
  /\ (forall name,
         fst (match_face encoding face_data 0.6) = Some name ->
         40 < snd (match_face encoding face_data 0.6)).
Proof.
  intro Hpos. split.
  - rewrite match_face_score.
    destruct (match_face_loop_first_minimum encoding face_data)
      as (best & dist & -> & Hmin).
    inversion Hmin as [Hnil | i n known Hi Hle Hlt]; subst; simpl.
    + split; [apply Qle_refl | discriminate].
    + apply nth_error_In in Hi. specialize (Hpos _ Hi). simpl in Hpos.
      pose proof (max0_lower (1 - l2_distance encoding known)) as Hlow.
      split; [lra|].
      unfold Py.max.
      destruct (PyFacts.ltb_cases 0 (1 - l2_distance encoding known))
        as [[-> H] | [-> H]]; lra.
  - intros name Hname.
    destruct (match_face encoding face_data 0.6) as [best score] eqn:Hm.
    simpl in Hname. subst best.
    apply match_face_some in Hm as (known & _ & _ & Hlt & ->).
    simpl. rewrite max0_of_pos; lra.
Qed.

(** One more encoding keeps the emitted entries sound. *)
Lemma recognize_face_results_sound (face_data : dict Encoding)
      (P : match_record -> Prop) (encodings : list Encoding)
      (results : list match_record) :
  (forall name known score,
      In (name, known) face_data -> name <> "" -> 40 < score ->
      P (mkMatch name (Py.round score 2)
                 (if Py.gtb score 70 then "high"
                  else if Py.gtb score 40 then "medium" else "low"))) ->
  Forall P results ->
  Forall P
    (fold_left
       (fun results encoding =>
          let '(name, similarity) := match_face encoding face_data 0.6 in
          match name with
          | Some name =>
            if Py.str_truthy name then
              (results ++
                 [mkMatch name (Py.round similarity 2)
                    (if Py.gtb similarity 70 then "high"
                     else if Py.gtb similarity 40 then "medium"
                     else "low")])%list
            else results
          | None => results
          end)
       encodings results).
Proof.
  intro HP. revert results.
  induction encodings as [|encoding encodings IH]; intros results Hres;
    [exact Hres|].
  cbn [fold_left]. apply IH.
  destruct (match_face encoding face_data 0.6) as [[name|] score] eqn:Hm;
    [|exact Hres].
  destruct (Py.str_truthy name) eqn:Hname; [|exact Hres].
  apply Forall_app. split; [exact Hres|].
  constructor; [|constructor].
  pose proof (match_face_score_range_aux encoding face_data name score Hm)
    as Hscore.
  apply match_face_some in Hm as (known & _ & Hin & _ & _).
  apply (HP name known score Hin); [|exact Hscore].
  intros ->. discriminate.
Qed.

(** X3.  [recognize_face] answers with status 200 or raises status 500
    with the collaborator's message after "Face recognition failed: ".
    Every entry of [matches] names an enrolled profile with a non-empty
    name, has a rounded similarity of at least 40 and is labelled "high" or
    "medium": the "low" label is never emitted. *)
Theorem recognize_face_matches_sound (image_data user_id : string)
        (st : @store Encoding Embedding) :
  match fst (recognize_face image_data user_id st) with
  | JSONResponse status_code body =>
    status_code = 200%nat
    /\ Forall (fun record =>
                 In (name record) (map fst (face_data st))
                 /\ name record <> ""
                 /\ (confidence record = "high"
                     \/ confidence record = "medium")
                 /\ 40 <= similarity record)
              (fr_matches body)
  | HTTPException status_code detail =>
    status_code = 500%nat
    /\ exists e, detail = "Face recognition failed: " ++ e
  end.
Proof.
  unfold recognize_face, bind, read_face_data, ret. cbn [fst].
  destruct (decode_base64_image image_data) as [image_array|e];
    cbn [result_bind try_except]; [|split; [reflexivity | now exists e]].
  destruct (face_locations image_array) as [locations|e];
    cbn [result_bind try_except]; [|split; [reflexivity | now exists e]].
  destruct locations as [|l locations]; cbn [Py.list_truthy negb].
  - cbn [try_except fr_matches]. split; [reflexivity | constructor].
  - destruct (face_encodings image_array (l :: locations)) as [encodings|e];
      cbn [result_bind try_except]; [|split; [reflexivity | now exists e]].
    split; [reflexivity|]. cbn [fr_matches].
    apply recognize_face_results_sound; [|constructor].
    intros n known score Hin Hname Hscore.
    cbn [name confidence similarity].
    split; [apply in_map_iff; now exists (n, known)|].
    split; [exact Hname|].
    split.
    + destruct (Py.gtb score 70); [now left|].
      apply PyFacts.gtb_gt in Hscore. rewrite Hscore. now right.
    + apply Qle_trans with (Py.round 40 2); [discriminate|].
      apply NumFacts.round_mono. now apply Qlt_le_weak.
Qed.

End MoreIdentification.

Section MoreVoiceIdentification.

Local Open Scope string_scope.

Context {Image Location Encoding Waveform Embedding : Type}.
Context {C : Collaborators Image Location Encoding Waveform Embedding}.



End MoreVoiceIdentification.

(** ** Voice identification: what the endpoint answers *)

Section VoiceIdentificationResponse.

Local Open Scope string_scope.

Context {Image Location Encoding Waveform Embedding : Type}.
Context {C : Collaborators Image Location Encoding Waveform Embedding}.

(** The loop that tracks the numpy type takes the branches of the loop of
    [recognize_voice]: both hold the same [highest_similarity]. *)
Lemma similarity_dtype_step_highest (input_embedding : Embedding)
      (voice_data : dict Embedding) (best : option string) (highest : Q)
      (d : option dtype) :
  fst (fold_left (similarity_dtype_step input_embedding) voice_data
                 (highest, d))
  = snd (fold_left (voice_scan_step input_embedding) voice_data
                   (best, highest)).
Proof.
  revert best highest d.
  induction voice_data as [|[n stored] rest IH]; intros best highest d;
    cbn [fold_left similarity_dtype_step voice_scan_step]; [reflexivity|].
  destruct (Py.gtb (cosine_similarity input_embedding stored) highest);
    apply IH.
Qed.

(** With a double-precision input, [highest_similarity] is never a
    single-precision scalar. *)
Lemma similarity_dtype_double (input_embedding : Embedding)
      (voice_data : dict Embedding) (highest : Q) (d : option dtype) :
  embedding_dtype input_embedding = float64 ->
  d <> Some float32 ->
  snd (fold_left (similarity_dtype_step input_embedding) voice_data
                 (highest, d))
  <> Some float32.
Proof.
  intro Hinput. revert highest d.
  induction voice_data as [|[n stored] rest IH]; intros highest d Hd;
    cbn [fold_left similarity_dtype_step]; [exact Hd|].
  destruct (Py.gtb (cosine_similarity input_embedding stored) highest).
  - apply IH. rewrite Hinput. discriminate.
  - now apply IH.
Qed.

(** With single-precision vectors on both sides, [highest_similarity] is a
    single-precision scalar as soon as the loop holds a candidate. *)
Lemma similarity_dtype_single (input_embedding : Embedding)
      (voice_data : dict Embedding) (best : option string) (highest : Q)
      (d : option dtype) :
  embedding_dtype input_embedding = float32 ->
  (forall n stored, In (n, stored) voice_data ->
                    embedding_dtype stored = float32) ->
  (best <> None -> d = Some float32) ->
  fst (fold_left (voice_scan_step input_embedding) voice_data
                 (best, highest)) <> None ->
  snd (fold_left (similarity_dtype_step input_embedding) voice_data
                 (highest, d))
  = Some float32.
Proof.
  intro Hinput. revert best highest d.
  induction voice_data as [|[n stored] rest IH];
    intros best highest d Hstored Hd;
    cbn [fold_left similarity_dtype_step voice_scan_step fst snd];
    [exact Hd|].
  destruct (Py.gtb (cosine_similarity input_embedding stored) highest).
  - apply IH.
    + intros n' s' Hin. apply (Hstored n' s'). now right.
    + intros _. rewrite Hinput, (Hstored n stored) by now left.
      reflexivity.
  - apply IH; [|exact Hd].
    intros n' s' Hin. apply (Hstored n' s'). now right.
Qed.

(** X15.  What [recognize_voice] answers once the upload has yielded an
    embedding.  With a double-precision input embedding it answers with the
    identification result under status 200.  With single-precision
    embeddings, the element type the voice encoder returns, an
    identification that finds a match is never reported: the content holds
    the similarity as a single-precision numpy scalar and the endpoint
    answers with status 500 and the text of the [TypeError]. *)
Theorem voice_identification_answer (audio_file : list byte)
        (user_id : string) (st : @store Encoding Embedding)
        (wav_data : Waveform) (input_embedding : Embedding) :
  preprocess_wav audio_file = Ok wav_data ->
  (16000 <= wav_len wav_data)%Z ->
  embed_utterance wav_data = Ok input_embedding ->
  (embedding_dtype input_embedding = float64 ->
   recognize_voice audio_file user_id st
   = (JSONResponse 200 (voice_identify input_embedding (voice_data st)),
      st))
  /\ (embedding_dtype input_embedding = float32 ->
      (forall n stored, In (n, stored) (voice_data st) ->
                        embedding_dtype stored = float32) ->
      vr_matches (voice_identify input_embedding (voice_data st)) <> [] ->
      recognize_voice audio_file user_id st
      = (HTTPException 500
           "Voice recognition failed: Object of type float32 is not JSON serializable",
         st)).
Proof.
  intros Hpre Hlen Hemb.
  assert (Hlong : (wav_len wav_data <? 16000)%Z = false)
    by (apply Z.ltb_ge; exact Hlen).
  assert (Hrun : recognize_voice audio_file user_id st
                 = (try_except
                      (json_response
                         (voice_identify_scalars input_embedding
                                                 (voice_data st))
                         200
                         (voice_identify input_embedding (voice_data st)))
                      (fun e => HTTPException 500
                                  ("Voice recognition failed: " ++ e)),
                    st)).
  { unfold recognize_voice, bind, read_voice_data, ret. cbn [fst snd].
    rewrite Hpre. cbn [result_bind]. rewrite Hlong, Hemb. reflexivity. }
  rewrite Hrun. clear Hrun.
  split.
  - intro Hinput.
    pose proof (similarity_dtype_double
                  input_embedding (voice_data st) (-1) None Hinput) as Hd.
    unfold voice_identify_scalars, highest_similarity_dtype.
    destruct (voice_scan input_embedding (voice_data st)) as [best highest].
    destruct (snd (fold_left (similarity_dtype_step input_embedding)
                             (voice_data st) (-1, None)))
      as [[|]|]; [exfalso; apply Hd; [discriminate | reflexivity] | |].
    + destruct (Py.opt_str_truthy best); [|reflexivity].
      unfold max0_scalars. now destruct (Py.gtb (highest * 100) 0).
    + reflexivity.
  - intros Hinput Hstored Hmatch.
    unfold voice_identify in Hmatch.
    unfold voice_identify_scalars, highest_similarity_dtype.
    pose proof (similarity_dtype_single
                  input_embedding (voice_data st) None (-1) None Hinput
                  Hstored) as Hd.
    unfold voice_scan in *.
    destruct (fold_left (voice_scan_step input_embedding) (voice_data st)
                        (None, -1))
      as [[n|] highest]; cbn [vr_matches fst] in *; [|congruence].
    rewrite Hd; [|congruence | discriminate].
    destruct (Py.str_truthy n) eqn:Hn; cbn [andb] in Hmatch; [|congruence].
    destruct (Py.geb highest 0.60) eqn:Hge; [|congruence].
    cbn [Py.opt_str_truthy]. rewrite Hn.
    apply PyFacts.geb_ge in Hge.
    unfold max0_scalars.
    replace (Py.gtb (highest * 100) 0) with true
      by (symmetry; apply PyFacts.gtb_gt; lra).
    reflexivity.
Qed.

End VoiceIdentificationResponse.

(** ** Combined authentication: modes, envelope and enrolment *)

Section MoreAuthentication.

Local Open Scope string_scope.

Context {Image Location Encoding Waveform Embedding : Type}.
Context {C : Collaborators Image Location Encoding Waveform Embedding}.

Lemma dict_get_In {V : Type} (k : string) (d : dict V) (v : V) :
  dict_get k d = Some v -> In (k, v) d.
Proof.
  induction d as [|[k' v'] d IH]; simpl; [discriminate|].
  destruct (String.eqb k k') eqn:E.
  - apply String.eqb_eq in E. intro H. injection H as ->. subst. now left.
  - intro H. right. now apply IH.
Qed.

Lemma dict_get_mem {V : Type} (k : string) (d : dict V) (v : V) :
  dict_get k d = Some v -> dict_mem k d = true.
Proof. unfold dict_mem. now intros ->. Qed.

(** In a dict, whose keys are distinct, an item is what its key looks
    up. *)
Lemma dict_get_nodup {V : Type} (k : string) (d : dict V) (v : V) :
  NoDup (map fst d) -> In (k, v) d -> dict_get k d = Some v.
Proof.
  induction d as [|[k' v'] d IH]; simpl; [contradiction|].
  intros Hnd Hin. inversion Hnd as [|? ? Hnotin Hnd']; subst.
  destruct Hin as [Heq | Hin].
  - injection Heq as -> ->. now rewrite String.eqb_refl.
  - destruct (String.eqb k k') eqn:E; [|now apply IH].
    apply String.eqb_eq in E. subst k'. exfalso. apply Hnotin.
    apply in_map_iff. now exists (k, v).
Qed.

(** The sample of a request yields one first face vector. *)
Lemma face_sample_unique (image_data : option string)
      (encoding encoding' : Encoding) :
  face_sample image_data encoding -> face_sample image_data encoding' ->
  encoding = encoding'.
Proof.
  intros (d & i & l & r & -> & _ & Hd & Hl & _ & He)
         (d' & i' & l' & r' & Heq & _ & Hd' & Hl' & _ & He').
  injection Heq as <-. rewrite Hd in Hd'. injection Hd' as <-.
  rewrite Hl in Hl'. injection Hl' as <-.
  rewrite He in He'. now injection He' as <- _.
Qed.

(** X5.  In mode "face" the endpoint always answers with a body: the
    request passes exactly when face verification succeeds, and the body
    carries no voice record.  In mode "voice" it answers with status 500
    when the voice block wrote a record with a single-precision similarity
    above 0, and otherwise with a body in which the request passes exactly
    when voice verification succeeds and which carries no face record. *)
Theorem single_mode_passes_iff (profile user_id : string)
        (image_data : option string) (audio_file : option (list byte))
        (st : @store Encoding Embedding) :
  (exists body,
      combined_authentication "face" profile user_id image_data audio_file
                              st
      = (JSONResponse 200 body, st)
      /\ voice_match body = None
      /\ (authentication_passed body = true
          <-> face_verified (face_data st) profile image_data))
  /\ ((voice_record_unserializable (voice_data st) profile audio_file
       /\ combined_authentication "voice" profile user_id image_data
                                  audio_file st
          = (HTTPException 500
               "Authentication failed: Object of type float32 is not JSON serializable",
             st))
      \/ (~ voice_record_unserializable (voice_data st) profile audio_file
          /\ exists body,
              combined_authentication "voice" profile user_id image_data
                                      audio_file st
              = (JSONResponse 200 body, st)
              /\ face_match body = None
              /\ (authentication_passed body = true
                  <-> voice_verified (voice_data st) profile audio_file))).
Proof.
  split.
  - destruct (combined_authentication_answer "face" profile user_id
                image_data audio_file st)
      as [(Hmode & _) | [_ Hanswer]]; [discriminate|].
    eexists. split; [exact Hanswer|].
    destruct (authentication_results_records
                (face_data st) (voice_data st) "face" profile image_data
                audio_file) as [_ Hvm].
    destruct (authentication_results_passed
                (face_data st) (voice_data st) "face" profile image_data
                audio_file) as [_ Hpass].
    cbv zeta in Hvm, Hpass.
    split.
    + rewrite Hvm. now destruct audio_file.
    + rewrite Hpass. split.
      * intros [[_ H] | [[E _] | [E _]]]; [exact H | discriminate..].
      * intro H. left. now split.
  - destruct (combined_authentication_answer "voice" profile user_id
                image_data audio_file st)
      as [(_ & Hbad & Hanswer) | [Hgood Hanswer]].
    + left. split; [exact Hbad | exact Hanswer].
    + right. split; [intro Hbad; apply Hgood; now split|].
      eexists. split; [exact Hanswer|].
      destruct (authentication_results_records
                  (face_data st) (voice_data st) "voice" profile image_data
                  audio_file) as [Hfm _].
      destruct (authentication_results_passed
                  (face_data st) (voice_data st) "voice" profile image_data
                  audio_file) as [_ Hpass].
      cbv zeta in Hfm, Hpass.
      split.
      * rewrite Hfm. now destruct image_data.
      * rewrite Hpass. split.
        -- intros [[E _] | [[_ H] | [E _]]]; [discriminate | exact H
                                              | discriminate].
        -- intro H. right. left. now split.
Qed.

(** X6.  A mode other than "face", "voice" and "both" runs neither block:
    whatever is supplied, the request fails with the generic message and
    no record. *)
Theorem unknown_mode_always_fails (mode profile user_id : string)
        (image_data : option string) (audio_file : option (list byte))
        (st : @store Encoding Embedding) :
  mode <> "face" -> mode <> "voice" -> mode <> "both" ->
  combined_authentication mode profile user_id image_data audio_file st
  = (JSONResponse 200
       (mkAuthResponse false ("Authentication failed for " ++ profile)
                       None None false),
     st).
Proof.
  intros Hf Hv Hb.
  apply String.eqb_neq in Hf, Hv, Hb.
  unfold combined_authentication, bind, read_face_data, read_voice_data,
    ret, authentication_results.
  assert (Hface : face_authentication (face_data st) mode profile
                                      image_data ""
                  = (false, None, "")).
  { unfold face_authentication, Py.str_in. cbn [existsb].
    rewrite Hf, Hb. now destruct image_data. }
  rewrite Hface.
  assert (Hvoice : voice_authentication (voice_data st) mode profile
                                        audio_file ""
                   = (false, None, "")).
  { unfold voice_authentication, Py.str_in. cbn [existsb].
    rewrite Hv, Hb. now destruct audio_file. }
  rewrite Hvoice.
  assert (Hscalars : voice_match_scalars (voice_data st) mode profile
                                         audio_file = []).
  { unfold voice_match_scalars, Py.str_in. cbn [existsb].
    rewrite Hv, Hb. now destruct audio_file. }
  rewrite Hscalars.
  unfold fuse. rewrite Hf, Hv, Hb. reflexivity.
Qed.

(** X7.  Mode "face" never looks at the audio and mode "voice" never looks
    at the image: the answer is the one of the same request without
    them. *)
Theorem single_mode_ignores_other_input (profile user_id : string)
        (image_data : option string) (audio_file : option (list byte))
        (st : @store Encoding Embedding) :
  combined_authentication "face" profile user_id image_data audio_file st
  = combined_authentication "face" profile user_id image_data None st
  /\ combined_authentication "voice" profile user_id image_data audio_file
                             st
     = combined_authentication "voice" profile user_id None audio_file st.
Proof.
  split.
  - unfold combined_authentication, bind, read_face_data, read_voice_data,
      ret, authentication_results.
    destruct (face_authentication (face_data st) "face" profile image_data
                                  "")
      as [[face_success face_record] message].
    now destruct audio_file.
  - unfold combined_authentication, bind, read_face_data, read_voice_data,
      ret, authentication_results.
    now destruct image_data.
Qed.

(** X8.  Every request is answered in one of two ways.  Either with status
    200 and a body in which [success] equals [authentication_passed], whose
    message is never empty and, on a pass, is "Authentication successful
    for" the profile, the diagnostics being dropped.  Or, exactly when the
    mode runs the voice block and that block wrote a record with a
    single-precision similarity above 0, with status 500 and the text of
    the [TypeError]. *)
Theorem authentication_envelope (mode profile user_id : string)
        (image_data : option string) (audio_file : option (list byte))
        (st : @store Encoding Embedding) :
  (~ (Py.str_in mode ["voice"; "both"] = true
      /\ voice_record_unserializable (voice_data st) profile audio_file)
   /\ exists body,
       combined_authentication mode profile user_id image_data audio_file
                               st
       = (JSONResponse 200 body, st)
       /\ success body = authentication_passed body
       /\ message body <> ""
       /\ (authentication_passed body = true ->
           message body = "Authentication successful for " ++ profile))
  \/ (Py.str_in mode ["voice"; "both"] = true
      /\ voice_record_unserializable (voice_data st) profile audio_file
      /\ combined_authentication mode profile user_id image_data audio_file
                                 st
         = (HTTPException 500
              "Authentication failed: Object of type float32 is not JSON serializable",
            st)).
Proof.
  destruct (combined_authentication_answer mode profile user_id image_data
                                           audio_file st)
    as [Hbad | [Hgood Hanswer]]; [right; exact Hbad|].
  left. split; [exact Hgood|].
  eexists. split; [exact Hanswer|].
  unfold authentication_results.
  destruct (face_authentication (face_data st) mode profile image_data "")
    as [[face_success face_record] diagnostics].
  destruct (voice_authentication (voice_data st) mode profile audio_file
                                 diagnostics)
    as [[voice_success voice_record] diagnostics'].
  split; [reflexivity|].
  cbn [message authentication_passed].
  destruct (fuse mode face_success voice_success).
  - split; [discriminate | reflexivity].
  - split; [|discriminate].
    destruct diagnostics'; cbn [Py.str_truthy]; discriminate.
Qed.

(** X22.  Mode "both".  [results] has [success] equal to
    [authentication_passed], true exactly when face verification and voice
    verification both succeed.  The endpoint answers with [results] under
    status 200, unless the voice block wrote a record with a
    single-precision similarity above 0: then it answers with status 500.
    Without an image [results] has no face record, fails, and its message
    is made of the diagnostics of the voice block only (the generic text
    when there are none); without audio, symmetrically, and the endpoint
    then always answers with [results]. *)
Theorem both_mode_verdict (profile user_id : string)
        (image_data : option string) (audio_file : option (list byte))
        (st : @store Encoding Embedding) :
  let results :=
    authentication_results (face_data st) (voice_data st) "both" profile in
  ((voice_record_unserializable (voice_data st) profile audio_file
    /\ combined_authentication "both" profile user_id image_data audio_file
                               st
       = (HTTPException 500
            "Authentication failed: Object of type float32 is not JSON serializable",
          st))
   \/ (~ voice_record_unserializable (voice_data st) profile audio_file
       /\ combined_authentication "both" profile user_id image_data
                                  audio_file st
          = (JSONResponse 200 (results image_data audio_file), st)))
  /\ success (results image_data audio_file)
     = authentication_passed (results image_data audio_file)
  /\ (authentication_passed (results image_data audio_file) = true
      <-> face_verified (face_data st) profile image_data
          /\ voice_verified (voice_data st) profile audio_file)
  /\ (let '(_, voice_record, diagnostics) :=
        voice_authentication (voice_data st) "both" profile audio_file "" in
      results None audio_file
      = mkAuthResponse false
          (if Py.str_truthy diagnostics then diagnostics
           else "Authentication failed for " ++ profile)
          None voice_record false)
  /\ (let '(_, face_record, diagnostics) :=
        face_authentication (face_data st) "both" profile image_data "" in
      results image_data None
      = mkAuthResponse false
          (if Py.str_truthy diagnostics then diagnostics
           else "Authentication failed for " ++ profile)
          face_record None false
      /\ combined_authentication "both" profile user_id image_data None st
         = (JSONResponse 200 (results image_data None), st)).
Proof.
  cbv zeta.
  split; [|split; [|split; [|split]]].
  - destruct (combined_authentication_answer "both" profile user_id
                image_data audio_file st)
      as [(_ & Hbad & Hanswer) | [Hgood Hanswer]].
    + left. now split.
    + right. split; [|exact Hanswer].
      intro Hbad. apply Hgood. now split.
  - apply authentication_results_passed.
  - destruct (authentication_results_passed
                (face_data st) (voice_data st) "both" profile image_data
                audio_file) as [_ Hpass].
    cbv zeta in Hpass. rewrite Hpass. split.
    + intros [[E _] | [[E _] | [_ H]]]; [discriminate.. | exact H].
    + intro H. right. right. now split.
  - unfold authentication_results. cbn [face_authentication].
    destruct (voice_authentication (voice_data st) "both" profile
                                   audio_file "")
      as [[voice_success voice_record] diagnostics].
    reflexivity.
  - unfold combined_authentication, bind, read_face_data, read_voice_data,
      ret, authentication_results.
    destruct (face_authentication (face_data st) "both" profile image_data
                                  "")
      as [[face_success face_record] diagnostics].
    cbn [voice_authentication].
    change (fuse "both" face_success false) with (face_success && false).
    rewrite andb_false_r. split; reflexivity.
Qed.

End MoreAuthentication.

Section Enrolment.

Local Open Scope string_scope.

Context {Image Location Encoding Waveform Embedding : Type}.
Context {C : Collaborators Image Location Encoding Waveform Embedding}.

Lemma face_verified_enrolled (face_data : dict Encoding) (profile : string)
      (image_data : option string) :
  face_verified face_data profile image_data ->
  dict_mem profile face_data = true.
Proof.
  intros (e & k & _ & Hget & _). exact (dict_get_mem _ _ _ Hget).
Qed.

Lemma voice_verified_enrolled (voice_data : dict Embedding)
      (profile : string) (audio_file : option (list byte)) :
  voice_verified voice_data profile audio_file ->
  dict_mem profile voice_data = true.
Proof.
  intros (e & k & _ & Hget & _). exact (dict_get_mem _ _ _ Hget).
Qed.

(** X9.  A request can only pass in a mode whose templates the profile
    has: the face template in mode "face", the voice template in mode
    "voice", both in mode "both".  For a profile of the listing this is
    the [supports_modes] flag of that mode. *)
Theorem pass_requires_enrolment (mode profile user_id : string)
        (image_data : option string) (audio_file : option (list byte))
        (st : @store Encoding Embedding) (body : auth_response) :
  combined_authentication mode profile user_id image_data audio_file st
  = (JSONResponse 200 body, st) ->
  authentication_passed body = true ->
  ((mode = "face" /\ dict_mem profile (face_data st) = true)
   \/ (mode = "voice" /\ dict_mem profile (voice_data st) = true)
   \/ (mode = "both" /\ dict_mem profile (face_data st) = true
       /\ dict_mem profile (voice_data st) = true))
  /\ forall entry,
      In entry (profiles (fst (get_available_profiles st))) ->
      pe_name entry = profile ->
      (mode = "face" /\ sm_face (pe_supports_modes entry) = true)
      \/ (mode = "voice" /\ sm_voice (pe_supports_modes entry) = true)
      \/ (mode = "both" /\ sm_both (pe_supports_modes entry) = true).
Proof.
  intros Hrun Hpass.
  assert (Hmodes :
            (mode = "face" /\ dict_mem profile (face_data st) = true)
            \/ (mode = "voice" /\ dict_mem profile (voice_data st) = true)
            \/ (mode = "both" /\ dict_mem profile (face_data st) = true
                /\ dict_mem profile (voice_data st) = true)).
  { destruct (combined_authentication_answer mode profile user_id
                image_data audio_file st)
      as [(_ & _ & Hanswer) | [_ Hanswer]];
      rewrite Hanswer in Hrun; [discriminate|].
    injection Hrun as <-.
    apply authentication_results_passed in Hpass.
    destruct Hpass as [[Hm Hf] | [[Hm Hv] | [Hm [Hf Hv]]]].
    - left. split; [exact Hm | exact (face_verified_enrolled _ _ _ Hf)].
    - right. left.
      split; [exact Hm | exact (voice_verified_enrolled _ _ _ Hv)].
    - right. right. split; [exact Hm|].
      split; [exact (face_verified_enrolled _ _ _ Hf)
             | exact (voice_verified_enrolled _ _ _ Hv)]. }
  split; [exact Hmodes|].
  intros entry Hin Hname.
  cbn in Hin.
  destruct Hin as [<- | [<- | [<- | []]]]; cbn in Hname; subst profile;
    cbn [pe_supports_modes sm_face sm_voice sm_both];
    destruct Hmodes as [[-> H] | [[-> H] | [-> [H H']]]];
    try (left; split; [reflexivity | exact H]);
    try (right; left; split; [reflexivity | exact H]);
    right; right; (split; [reflexivity | now rewrite H, H']).
Qed.

(** X10.  The similarity carried by a face record agrees with its verdict:
    a positive record has at least 40 and the label "high" or "medium", a
    "No match" record has at most 40. *)
Theorem face_record_agrees_with_verdict (face_data : dict Encoding)
        (mode profile : string) (image_data : option string)
        (message : string) (encoding known_encoding : Encoding) :
  Py.str_in mode ["face"; "both"] = true ->
  face_sample image_data encoding ->
  dict_get profile face_data = Some known_encoding ->
  exists face_success record,
    face_authentication face_data mode profile image_data message
    = (face_success, Some record, message)
    /\ (face_success = true ->
        name record = profile /\ 40 <= similarity record
        /\ (confidence record = "high" \/ confidence record = "medium"))
    /\ (face_success = false ->
        name record = "No match" /\ similarity record <= 40
        /\ confidence record = "low").
Proof.
  intros Hmode Hsample Hget.
  rewrite (face_authentication_of_sample _ _ _ _ _ _ Hmode Hsample), Hget.
  cbv zeta.
  set (dist := l2_distance encoding known_encoding).
  destruct (PyFacts.ltb_cases dist 0.6) as [[-> Hd] | [-> Hd]];
    eexists _, _; (split; [reflexivity|]);
    cbn [name similarity confidence]; (split; [|discriminate]) || split;
    try discriminate; intros _.
  - split; [reflexivity|]. split.
    + apply Qle_trans with (Py.round 40 2); [discriminate|].
      apply NumFacts.round_mono. rewrite max0_of_pos; lra.
    + destruct (Py.gtb _ 70); [now left | now right].
  - split; [reflexivity|]. split; [|reflexivity].
    apply Qle_trans with (Py.round 40 2); [|discriminate].
    apply NumFacts.round_mono. unfold Py.max.
    destruct (PyFacts.ltb_cases 0 (1 - dist)) as [[-> H] | [-> H]]; lra.
Qed.

(** X11.  The similarity carried by a voice record agrees with its verdict:
    a positive record has at least 60 and the label "high" or "medium", a
    "No match" record has at most 60. *)
Theorem voice_record_agrees_with_verdict (voice_data : dict Embedding)
        (mode profile : string) (audio_file : option (list byte))
        (message : string) (input_embedding stored_embedding : Embedding) :
  Py.str_in mode ["voice"; "both"] = true ->
  voice_sample audio_file input_embedding ->
  dict_get profile voice_data = Some stored_embedding ->
  exists voice_success record,
    voice_authentication voice_data mode profile audio_file message
    = (voice_success, Some record, message)
    /\ (voice_success = true ->
        name record = profile /\ 60 <= similarity record
        /\ (confidence record = "high" \/ confidence record = "medium"))
    /\ (voice_success = false ->
        name record = "No match" /\ similarity record <= 60
        /\ confidence record = "low").
Proof.
  intros Hmode Hsample Hget.
  rewrite (voice_authentication_of_sample _ _ _ _ _ _ Hmode Hsample), Hget.
  cbv zeta.
  set (s := cosine_similarity input_embedding stored_embedding).
  destruct (Py.geb s 0.60) eqn:Hs;
    eexists _, _; (split; [reflexivity|]);
    cbn [name similarity confidence]; (split; [|discriminate]) || split;
    try discriminate; intros _.
  - apply PyFacts.geb_ge in Hs.
    split; [reflexivity|]. split.
    + apply Qle_trans with (Py.round 60 2); [discriminate|].
      apply NumFacts.round_mono. rewrite max0_of_pos; lra.
    + destruct (Py.gtb _ 75); [now left | now right].
  - apply PyFacts.geb_lt in Hs.
    split; [reflexivity|]. split; [|reflexivity].
    apply Qle_trans with (Py.round 60 2); [|discriminate].
    apply NumFacts.round_mono. unfold Py.max.
    destruct (PyFacts.ltb_cases 0 (s * 100)) as [[-> H] | [-> H]]; lra.
Qed.

(** X12.  Identification and verification agree.  In a gallery with
    distinct keys, the profile that [match_face] names for a face vector
    passes face verification on a sample with that vector, with the same
    score; and a sample that passes face verification for some profile is
    named a profile by [match_face], with a score at least as high. *)
Theorem identification_agrees_with_verification (face_data : dict Encoding)
        (mode : string) (image_data : option string) (message : string)
        (encoding : Encoding) :
  NoDup (map fst face_data) ->
  Py.str_in mode ["face"; "both"] = true ->
  face_sample image_data encoding ->
  (forall name score,
      match_face encoding face_data 0.6 = (Some name, score) ->
      face_authentication face_data mode name image_data message
      = (true,
         Some (mkMatch name (Py.round score 2)
                 (if Py.gtb score 70 then "high" else "medium")),
         message))
  /\ (forall profile known_encoding,
         dict_get profile face_data = Some known_encoding ->
         l2_distance encoding known_encoding < 0.6 ->
         exists name score,
           match_face encoding face_data 0.6 = (Some name, score)
           /\ Py.max 0 (1 - l2_distance encoding known_encoding) * 100
              <= score).
Proof.
  intros Hnodup Hmode Hsample. split.
  - intros n score Hm.
    apply match_face_some in Hm as (known & _ & Hin & Hlt & ->).
    rewrite (face_authentication_of_sample _ _ _ _ _ _ Hmode Hsample).
    rewrite (dict_get_nodup _ _ _ Hnodup Hin). cbv zeta.
    apply PyFacts.ltb_lt in Hlt. now rewrite Hlt.
  - intros profile known Hget Hlt.
    apply dict_get_In in Hget.
    unfold match_face.
    destruct (match_face_loop_first_minimum encoding face_data)
      as (best & dist & -> & Hmin).
    inversion Hmin as [Hnil | i n k Hi Hle _]; subst.
    + contradiction.
    + apply In_nth_error in Hget as [j Hj].
      specialize (Hle _ _ Hj). cbn [snd] in Hle.
      assert (Hk : l2_distance encoding k < 0.6)
        by (eapply Qle_lt_trans; [exact Hle | exact Hlt]).
      cbn [Py.e_lt Py.max0_one_minus].
      apply PyFacts.ltb_lt in Hk as Hkb. rewrite Hkb.
      eexists _, _. split; [reflexivity|].
      rewrite !max0_of_pos by lra. lra.
Qed.

End Enrolment.

(** ** A service started without model files *)

Section MissingModels.

Local Open Scope string_scope.

Context {Image Location Encoding Waveform Embedding : Type}.
Context {C : Collaborators Image Location Encoding Waveform Embedding}.

Lemma recognize_face_results_empty (encodings : list Encoding) :
  fold_left
    (fun results encoding =>
       let '(name, similarity) := match_face encoding [] 0.6 in
       match name with
       | Some name =>
         if Py.str_truthy name then
           (results ++
              [mkMatch name (Py.round similarity 2)
                 (if Py.gtb similarity 70 then "high"
                  else if Py.gtb similarity 40 then "medium"
                  else "low")])%list
         else results
       | None => results
       end)
    encodings []
  = [].
Proof.
  induction encodings as [|e encodings IH]; [reflexivity | exact IH].
Qed.

(** X13.  When neither model file is found at start-up, whatever the store
    held, the service still answers: the health check counts 0 and 0, the
    listing flags the three profiles as having no model, neither
    identification endpoint ever emits a match and no authentication
    request passes in any mode. *)
Theorem missing_models_never_match (st0 : @store Encoding Embedding) :
  let st := snd (load_models None None st0) in
  fst (health_check st) = mkHealth "healthy" 0 0
  /\ (forall entry,
         In entry (profiles (fst (get_available_profiles st))) ->
         has_face_model entry = false /\ has_voice_model entry = false)
  /\ (forall image_data user_id,
         match fst (recognize_face image_data user_id st) with
         | JSONResponse _ body => fr_matches body = []
         | HTTPException _ _ => True
         end)
  /\ (forall audio_file user_id,
         match fst (recognize_voice audio_file user_id st) with
         | JSONResponse _ body => vr_matches body = []
         | HTTPException _ _ => True
         end)
  /\ (forall mode profile user_id image_data audio_file,
         exists body,
           combined_authentication mode profile user_id image_data
                                   audio_file st
           = (JSONResponse 200 body, st)
           /\ authentication_passed body = false).
Proof.
  cbv zeta.
  change (snd (load_models None None st0))
    with (@mkStore Encoding Embedding [] []).
  split; [reflexivity|].
  split.
  { intros entry Hin. cbn in Hin.
    destruct Hin as [<- | [<- | [<- | []]]]; now split. }
  split.
  { intros image_data user_id.
    unfold recognize_face, bind, read_face_data, ret. cbn [fst face_data].
    destruct (decode_base64_image image_data) as [image_array|e];
      cbn [result_bind try_except]; [|exact I].
    destruct (face_locations image_array) as [[|l locations]|e];
      cbn [result_bind try_except Py.list_truthy negb fr_matches];
      [reflexivity | | exact I].
    destruct (face_encodings image_array (l :: locations)) as [encodings|e];
      cbn [result_bind try_except fr_matches]; [|exact I].
    apply recognize_face_results_empty. }
  split.
  { intros audio_file user_id.
    unfold recognize_voice, bind, read_voice_data, ret.
    cbn [fst voice_data].
    destruct (preprocess_wav audio_file) as [wav_data|e];
      cbn [result_bind try_except]; [|exact I].
    destruct (wav_len wav_data <? 16000)%Z; [reflexivity|].
    destruct (embed_utterance wav_data) as [input|e];
      cbn [result_bind try_except]; [reflexivity | exact I]. }
  intros mode profile user_id image_data audio_file.
  destruct (combined_authentication_answer
              mode profile user_id image_data audio_file
              (@mkStore Encoding Embedding [] []))
    as [(_ & (i & s & _ & Hget & _) & _) | [_ Hanswer]]; [discriminate|].
  eexists. split; [exact Hanswer|].
  cbn [face_data voice_data].
  destruct (authentication_passed
              (authentication_results [] [] mode profile image_data
                                      audio_file)) eqn:Hpass; [|reflexivity].
  apply authentication_results_passed in Hpass.
  destruct Hpass as [[_ Hf] | [[_ Hv] | [_ [Hf _]]]].
  - destruct Hf as (e & k & _ & Hget & _). discriminate.
  - destruct Hv as (e & k & _ & Hget & _). discriminate.
  - destruct Hf as (e & k & _ & Hget & _). discriminate.
Qed.

End MissingModels.

(** ** Lip-sync analysis: what the endpoint answers *)

Section MoreLipSync.

Local Open Scope string_scope.

Context {Image Location Encoding Waveform Embedding : Type}.
Context {C : Collaborators Image Location Encoding Waveform Embedding}.

(** X14.  The endpoint never confirms a lip sync.  Whatever the video and
    the audio are, it answers with status 500 and the error body, in which
    [success] and [lip_sync_detected] are false and the confidence is 0.0.
    The error text is the one of the video pipeline when that raises, the
    insufficient-data text for a series of fewer than 10 entries, and the
    [TypeError] of the response constructor for every longer series. *)
Theorem lip_sync_check_always_fails (video_data : string)
        (audio_data : list byte) (duration : Z)
        (st : @store Encoding Embedding) :
  let e :=
    match lip_movements_of_video video_data with
    | Raised msg => msg
    | Ok (_, lip_movements) =>
      if (List.length lip_movements <? 10)%nat
      then "Insufficient video data for lip sync analysis"
      else TypeError np_bool
    end in
  lip_sync_check video_data audio_data duration st
  = (JSONResponse 500
       (mkLipResponse false false 0
          ("Error during lip sync analysis: " ++ e)
          (AnalysisError 0 0 0 e)),
     st).
Proof.
  cbv zeta. unfold lip_sync_check, ret.
  destruct (lip_movements_of_video video_data) as [[fps series]|msg];
    cbn [result_bind]; [|reflexivity].
  destruct (List.length series <? 10)%nat eqn:Hlen.
  - unfold lip_sync_analysis. rewrite Hlen. reflexivity.
  - rewrite lip_sync_analysis_raises by (apply Nat.ltb_ge in Hlen; lia).
    reflexivity.
Qed.

(** X16.  [lip_sync_check] never raises: it answers with a body under
    status 200 with [success=true], or under status 500 with
    [success=false], [lip_sync_detected=false], [confidence=0.0] and the
    error text both in the message and in the analysis. *)
Theorem lip_sync_check_never_raises (video_data : string)
        (audio_data : list byte) (duration : Z)
        (st : @store Encoding Embedding) :
  exists status_code body,
    lip_sync_check video_data audio_data duration st
    = (JSONResponse status_code body, st)
    /\ ((status_code = 200%nat /\ ls_success body = true)
        \/ (status_code = 500%nat
            /\ ls_success body = false
            /\ lip_sync_detected body = false
            /\ ls_confidence body = 0
            /\ exists e,
                ls_message body = "Error during lip sync analysis: " ++ e
                /\ analysis body = AnalysisError 0 0 0 e)).
Proof.
  unfold lip_sync_check, ret.
  destruct (lip_movements_of_video video_data) as [[fps series]|e];
    cbn [result_bind].
  - unfold lip_sync_analysis.
    destruct (List.length series <? 10)%nat; cbn [try_except].
    + eexists _, _. split; [reflexivity|]. right.
      repeat split. eexists. split; reflexivity.
    + eexists _, _. split; [reflexivity|]. right.
      repeat split. eexists. split; reflexivity.
  - cbn [try_except]. eexists _, _. split; [reflexivity|]. right.
    repeat split. exists e. split; reflexivity.
Qed.

End MoreLipSync.

(** ** Data URLs *)

Section DataUrls.

Local Open Scope string_scope.

Context {Image : Type}.
Variable open_rgb_array : string -> result Image.

Lemma split_without_separator (sep : ascii) (s : string) :
  PyStr.contains sep s = false -> PyStr.split sep s = [s].
Proof.
  induction s as [|c s IH]; [reflexivity|].
  cbn [PyStr.contains PyStr.split]. intro H.
  apply orb_false_iff in H as [Hc Hs].
  rewrite Hc, (IH Hs). reflexivity.
Qed.

Lemma split_at_first_separator (sep : ascii) (head rest : string) :
  PyStr.contains sep head = false ->
  PyStr.split sep (head ++ String sep rest) = head :: PyStr.split sep rest.
Proof.
  induction head as [|c head IH]; cbn [PyStr.contains append PyStr.split].
  - intros _. now rewrite Ascii.eqb_refl.
  - intro H. apply orb_false_iff in H as [Hc Hs].
    rewrite Hc, (IH Hs). reflexivity.
Qed.

Lemma prefix_append (kind s rest : string) :
  String.prefix kind s = true -> String.prefix kind (s ++ rest) = true.
Proof.
  revert s. induction kind as [|a kind IH]; intros s H.
  - destruct s; cbn; [destruct rest|]; reflexivity.
  - destruct s as [|b s]; cbn in *; [discriminate|].
    destruct (ascii_dec a b); [now apply IH | discriminate].
Qed.

(** X17.  A data URL is read through its header: when the header starts
    with the expected kind and neither it nor the payload holds a comma,
    stripping [header,payload] gives the payload; whatever follows a
    second comma is dropped.  For images, decoding the data URL is then
    decoding the bare payload. *)
Theorem data_url_header_is_transparent (kind header payload : string) :
  String.prefix kind header = true ->
  PyStr.contains "," header = false ->
  PyStr.contains "," payload = false ->
  strip_data_url kind (header ++ "," ++ payload) = Ok payload
  /\ (forall tail,
         strip_data_url kind (header ++ "," ++ payload ++ "," ++ tail)
         = Ok payload)
  /\ (kind = "data:image" ->
      String.prefix "data:image" payload = false ->
      decode_base64_image_impl open_rgb_array (header ++ "," ++ payload)
      = decode_base64_image_impl open_rgb_array payload).
Proof.
  intros Hkind Hheader Hpayload.
  assert (Hstrip : strip_data_url kind (header ++ "," ++ payload)
                   = Ok payload).
  { unfold strip_data_url. rewrite (prefix_append _ _ _ Hkind).
    change ("," ++ payload) with (String "," payload).
    rewrite (split_at_first_separator _ _ _ Hheader).
    now rewrite (split_without_separator _ _ Hpayload). }
  split; [exact Hstrip|]. split.
  - intro tail. unfold strip_data_url.
    rewrite (prefix_append _ _ _ Hkind).
    change ("," ++ payload ++ "," ++ tail)
      with (String "," (payload ++ String "," tail)).
    rewrite (split_at_first_separator _ _ _ Hheader).
    now rewrite (split_at_first_separator _ _ _ Hpayload).
  - intros -> Hbare. unfold decode_base64_image_impl.
    rewrite Hstrip. unfold strip_data_url at 1. now rewrite Hbare.
Qed.

(** X18.  A string that starts like a data URL but holds no comma cannot be
    indexed at 1: stripping raises, and [decode_base64_image] turns that,
    like every other failure, into status 400 "Invalid image data". *)
Theorem data_url_without_comma_is_rejected (kind data : string) :
  String.prefix kind data = true ->
  PyStr.contains "," data = false ->
  strip_data_url kind data = Raised "list index out of range"
  /\ (kind = "data:image" ->
      decode_base64_image_impl open_rgb_array data
      = HTTPRaised 400 "Invalid image data").
Proof.
  intros Hkind Hcomma.
  assert (Hstrip : strip_data_url kind data
                   = Raised "list index out of range").
  { unfold strip_data_url. rewrite Hkind.
    now rewrite (split_without_separator _ _ Hcomma). }
  split; [exact Hstrip|].
  intros ->. unfold decode_base64_image_impl. now rewrite Hstrip.
Qed.

(** X19.  [decode_base64_image] either returns the image that the payload
    opens to, or raises status 400 with the fixed detail "Invalid image
    data", whatever went wrong. *)
Theorem decode_base64_image_outcomes (base64_string : string) :
  match decode_base64_image_impl open_rgb_array base64_string with
  | Returned image =>
    exists payload,
      strip_data_url "data:image" base64_string = Ok payload
      /\ open_rgb_array payload = Ok image
  | HTTPRaised status_code detail =>
    status_code = 400%nat /\ detail = "Invalid image data"
    /\ (forall payload,
           strip_data_url "data:image" base64_string = Ok payload ->
           exists e, open_rgb_array payload = Raised e)
  end.
Proof.
  unfold decode_base64_image_impl.
  destruct (strip_data_url "data:image" base64_string) as [payload|e];
    cbn [result_bind try_except].
  - destruct (open_rgb_array payload) as [image|e] eqn:Hopen;
      cbn [result_bind try_except].
    + now exists payload.
    + split; [reflexivity|]. split; [reflexivity|].
      intros p Hp. injection Hp as <-. now exists e.
  - split; [reflexivity|]. split; [reflexivity|]. discriminate.
Qed.

End DataUrls.

(** ** The frame loop *)

Section MoreLipExtraction.

Context {Landmarks : Type}.
Variable landmark : Landmarks -> nat -> Q * Q.
Variable norm2 : Q * Q -> Q.

Lemma fps_or_30_nonzero (raw : Q) : ~ fps_or_30 raw == 0.
Proof.
  unfold fps_or_30. destruct (Qeq_bool raw 0) eqn:E.
  - discriminate.
  - now apply Qeq_bool_neq.
Qed.

Lemma lip_movements_loop_length (fps : Q) (frames : list (list Landmarks))
      (frame_count : nat) (lip_movements : list lip_movement) :
  List.length (lip_movements_loop landmark norm2 fps frame_count
                                  lip_movements frames)
  = (List.length lip_movements + List.length (List.concat frames))%nat.
Proof.
  revert frame_count lip_movements.
  induction frames as [|faces frames IH]; intros frame_count lip_movements;
    cbn [lip_movements_loop List.concat].
  - cbn. lia.
  - rewrite IH, !length_app, length_map. lia.
Qed.

(** Numbering a list from [start]: position [i] gets [start + i]. *)
Lemma nth_error_numbered {A : Type} (l : list A) (start i : nat) (x : A) :
  nth_error l i = Some x ->
  nth_error (combine (seq start (List.length l)) l) i
  = Some ((start + i)%nat, x).
Proof.
  revert start i.
  induction l as [|y l IH]; intros start i H.
  - destruct i; discriminate.
  - destruct i as [|i]; cbn [List.length seq combine nth_error] in *.
    + injection H as ->. now rewrite Nat.add_0_r.
    + rewrite (IH (S start) i H). f_equal. f_equal. lia.
Qed.

(** The entries a frame appends: one per face, stamped with the number of
    that frame. *)
Lemma lip_movements_loop_closed (fps : Q) (frames : list (list Landmarks))
      (frame_count : nat) (lip_movements : list lip_movement) :
  lip_movements_loop landmark norm2 fps frame_count lip_movements frames
  = (lip_movements ++
       List.concat
         (map (fun numbered =>
                 map (fun face_landmarks =>
                        mkLip (fst numbered)
                              (inject_Z (Z.of_nat (fst numbered)) / fps)
                              (lip_distance_of landmark norm2
                                               face_landmarks))
                     (snd numbered))
              (combine (seq (S frame_count) (List.length frames))
                       frames)))%list.
Proof.
  revert frame_count lip_movements.
  induction frames as [|faces frames IH]; intros frame_count lip_movements;
    cbn [lip_movements_loop List.length seq combine map List.concat fst snd].
  - now rewrite app_nil_r.
  - rewrite IH, <- app_assoc. reflexivity.
Qed.

(** X20.  The frame loop never divides by a zero frame rate: a rate of 0 is
    replaced by 30 and any other rate is kept.  The series it yields is, in
    the order of the frames, one entry per face detected in a frame (none
    for a frame without a face); the entry carries the 1-based number of the
    frame the face was detected in, that number divided by the frame rate as
    timestamp, and the lip gap of that face. *)
Theorem collected_lip_movements (raw_fps : Q)
        (frames : list (list Landmarks)) :
  let fps := fst (collect_lip_movements landmark norm2 raw_fps frames) in
  let series := snd (collect_lip_movements landmark norm2 raw_fps frames) in
  ~ fps == 0
  /\ (raw_fps == 0 -> fps = 30)
  /\ (~ raw_fps == 0 -> fps = raw_fps)
  /\ List.length series = List.length (List.concat frames)
  /\ series
     = List.concat
         (map (fun numbered =>
                 map (fun face_landmarks =>
                        mkLip (fst numbered)
                              (inject_Z (Z.of_nat (fst numbered)) / fps)
                              (lip_distance_of landmark norm2
                                               face_landmarks))
                     (snd numbered))
              (combine (seq 1 (List.length frames)) frames))
  /\ forall i faces j face_landmarks,
      nth_error frames i = Some faces ->
      nth_error faces j = Some face_landmarks ->
      In (mkLip (S i) (inject_Z (Z.of_nat (S i)) / fps)
                (lip_distance_of landmark norm2 face_landmarks))
         series.
Proof.
  cbv zeta. unfold collect_lip_movements. cbn [fst snd].
  split; [apply fps_or_30_nonzero|].
  split.
  { intro Hzero. unfold fps_or_30.
    now rewrite (proj2 (Qeq_bool_iff raw_fps 0) Hzero). }
  split.
  { intro Hnz. unfold fps_or_30.
    destruct (Qeq_bool raw_fps 0) eqn:E; [|reflexivity].
    apply Qeq_bool_iff in E. contradiction. }
  split; [now rewrite lip_movements_loop_length|].
  split; [now rewrite lip_movements_loop_closed|].
  intros i faces j face_landmarks Hframe Hface.
  rewrite lip_movements_loop_closed. cbn [app].
  apply in_concat.
  eexists. split.
  - apply in_map_iff. exists (S i, faces). split; [reflexivity|].
    apply nth_error_In with i.
    exact (nth_error_numbered frames 1 i faces Hframe).
  - cbn [fst snd]. apply in_map_iff. exists face_landmarks.
    split; [reflexivity|]. now apply nth_error_In with j.
Qed.

Lemma concat_at_most_one (frames : list (list Landmarks)) :
  (forall faces, In faces frames -> (List.length faces <= 1)%nat) ->
  List.length (List.concat frames)
  = List.length (filter Py.list_truthy frames).
Proof.
  induction frames as [|faces frames IH]; intro H; [reflexivity|].
  cbn [List.concat filter]. rewrite length_app, IH
    by (intros f Hf; apply H; now right).
  specialize (H faces (or_introl eq_refl)).
  destruct faces as [|f [|g faces]]; cbn in *; lia.
Qed.

(** X21.  With at most one face per frame, as the face mesh is configured,
    a video in which fewer than 10 frames show a face fails the analysis
    with "Insufficient video data for lip sync analysis", however many
    frames it has and whatever the audio is. *)
Theorem few_face_frames_are_insufficient (raw_fps : Q)
        (frames : list (list Landmarks)) (audio_content : list byte) :
  (forall faces, In faces frames -> (List.length faces <= 1)%nat) ->
  (List.length (filter Py.list_truthy frames) < 10)%nat ->
  lip_sync_analysis
    (fst (collect_lip_movements landmark norm2 raw_fps frames))
    (snd (collect_lip_movements landmark norm2 raw_fps frames))
    audio_content
  = Raised "Insufficient video data for lip sync analysis".
Proof.
  intros Hone Hfew.
  unfold lip_sync_analysis, collect_lip_movements. cbn [fst snd].
  rewrite lip_movements_loop_length, (concat_at_most_one _ Hone).
  cbn [List.length Nat.add].
  apply Nat.ltb_lt in Hfew. now rewrite Hfew.
Qed.

End MoreLipExtraction.

(** ** The further properties on the concrete collaborators *)

Section MoreExamples.

Local Open Scope string_scope.

Local Abbreviation C := Demo.collaborators.

Lemma match_face_threshold_monotone_witness :
  0.6 <= 0.9
  /\ fst (match_face (C := C) [0.3; 0.4] (face_data Demo.gallery) 0.6)
     = Some "George"
  /\ fst (match_face (C := C) [0.3; 0.4] (face_data Demo.gallery) 0.9)
     = Some "George".
Proof.
  assert (Ht : 0.6 <= 0.9) by discriminate.
  assert (Hm : fst (match_face (C := C) [0.3; 0.4]
                               (face_data Demo.gallery) 0.6)
               = Some "George") by reflexivity.
  split; [exact Ht|]. split; [exact Hm|].
  exact (proj1 (match_face_threshold_monotone
                  (C := C) [0.3; 0.4] (face_data Demo.gallery) 0.6 0.9
                  "George" Ht Hm)).
Defined.

Lemma demo_distances_nonneg (encoding : list Q) :
  encoding = [0.3; 0.4] ->
  forall item, In item (face_data Demo.gallery) ->
               0 <= l2_distance (Collaborators := C) encoding (snd item).
Proof.
  intros -> item [<- | [<- | []]]; vm_compute; discriminate.
Defined.

Lemma match_face_score_range_witness :
  0 <= snd (match_face (C := C) [0.3; 0.4] (face_data Demo.gallery) 0.6)
  <= 100.
Proof.
  exact (proj1 (match_face_score_range
                  (C := C) [0.3; 0.4] (face_data Demo.gallery) 0.6
                  (demo_distances_nonneg _ eq_refl))).
Defined.

Lemma unknown_mode_always_fails_witness :
  combined_authentication (C := C) "iris" "George" "u" (Some "img-same")
                          (Some [x04; x00]) Demo.gallery
  = (JSONResponse 200
       (mkAuthResponse false "Authentication failed for George" None None
                       false),
     Demo.gallery).
Proof.
  apply (unknown_mode_always_fails (C := C) "iris" "George" "u");
    discriminate.
Defined.

Lemma pass_requires_enrolment_witness :
  dict_mem "George" (face_data Demo.gallery) = true
  /\ dict_mem "George" (voice_data Demo.gallery) = true.
Proof.
  pose (body :=
          match fst (combined_authentication
                       (C := C) "both" "George" "u" (Some "img-near")
                       (Some [x01; x00]) Demo.gallery) with
          | JSONResponse _ b => b
          | HTTPException _ _ => mkAuthResponse false "" None None false
          end).
  assert (Hrun : combined_authentication
                   (C := C) "both" "George" "u" (Some "img-near")
                   (Some [x01; x00]) Demo.gallery
                 = (JSONResponse 200 body, Demo.gallery))
    by (vm_compute; reflexivity).
  assert (Hpass : authentication_passed body = true)
    by (vm_compute; reflexivity).
  destruct (proj1 (pass_requires_enrolment
                     (C := C) "both" "George" "u" (Some "img-near")
                     (Some [x01; x00]) Demo.gallery body Hrun Hpass))
    as [[H _] | [[H _] | [_ H]]]; [discriminate H | discriminate H | exact H].
Defined.

Lemma face_record_agrees_with_verdict_witness :
  exists face_success record,
    face_authentication (C := C) (face_data Demo.gallery) "face" "George"
                        (Some "img-near") ""
    = (face_success, Some record, "")
    /\ (face_success = true ->
        name record = "George" /\ 40 <= similarity record
        /\ (confidence record = "high" \/ confidence record = "medium"))
    /\ (face_success = false ->
        name record = "No match" /\ similarity record <= 40
        /\ confidence record = "low").
Proof.
  exact (face_record_agrees_with_verdict
           (C := C) (face_data Demo.gallery) "face" "George"
           (Some "img-near") "" [0.3; 0.4] [0; 0]
           eq_refl face_sample_near eq_refl).
Defined.

Lemma voice_record_agrees_with_verdict_witness :
  exists voice_success record,
    voice_authentication (C := C) (voice_data Demo.gallery) "voice" "George"
                         (Some [x01; x00]) ""
    = (voice_success, Some record, "")
    /\ (voice_success = true ->
        name record = "George" /\ 60 <= similarity record
        /\ (confidence record = "high" \/ confidence record = "medium"))
    /\ (voice_success = false ->
        name record = "No match" /\ similarity record <= 60
        /\ confidence record = "low").
Proof.
  exact (voice_record_agrees_with_verdict
           (C := C) (voice_data Demo.gallery) "voice" "George"
           (Some [x01; x00]) "" [3; 4] [1; 0]
           eq_refl voice_sample_first eq_refl).
Defined.

Lemma demo_gallery_keys_distinct : NoDup (map fst (face_data Demo.gallery)).
Proof.
  repeat constructor; cbn; intuition discriminate.
Defined.

Lemma identification_agrees_with_verification_witness :
  match_face (C := C) [0.3; 0.4] (face_data Demo.gallery) 0.6
  = (Some "George", 100 # 2)
  /\ face_authentication (C := C) (face_data Demo.gallery) "face" "George"
                         (Some "img-near") ""
     = (true,
        Some (mkMatch "George" (Py.round (100 # 2) 2)
                (if Py.gtb (100 # 2) 70 then "high" else "medium")),
        "").
Proof.
  assert (Hm : match_face (C := C) [0.3; 0.4] (face_data Demo.gallery) 0.6
               = (Some "George", 100 # 2)).
  { vm_compute. reflexivity. }
  split; [exact Hm|].
  exact (proj1 (identification_agrees_with_verification
                  (C := C) (face_data Demo.gallery) "face"
                  (Some "img-near") "" [0.3; 0.4]
                  demo_gallery_keys_distinct eq_refl face_sample_near)
               "George" (100 # 2) Hm).
Defined.

(** George's voice at similarity 0.6: reported with double-precision
    embeddings, answered with status 500 with single-precision ones. *)
Lemma voice_identification_answer_witness :
  recognize_voice (C := C) [x01; x00] "u" Demo.gallery
  = (JSONResponse 200
       (mkVoiceResponse true "Voice processed successfully"
          [mkMatch "George" (Py.round 60 2) "medium"]
          (Some (Py.round 60 2))),
     Demo.gallery)
  /\ recognize_voice (C := Demo.single_precision) [x01; x00] "u"
                     Demo.gallery
     = (HTTPException 500
          "Voice recognition failed: Object of type float32 is not JSON serializable",
        Demo.gallery).
Proof.
  assert (Hlen : (16000 <= 16000)%Z) by lia.
  split.
  - rewrite (proj1 (voice_identification_answer
                      (C := C) [x01; x00] "u" Demo.gallery
                      (16000%Z, [3; 4]) [3; 4] eq_refl Hlen eq_refl)
                   eq_refl).
    vm_compute. reflexivity.
  - apply (proj2 (voice_identification_answer
                    (C := Demo.single_precision) [x01; x00] "u"
                    Demo.gallery (16000%Z, [3; 4]) [3; 4]
                    eq_refl Hlen eq_refl)).
    + reflexivity.
    + intros n stored _. reflexivity.
    + vm_compute. discriminate.
Defined.

Lemma data_url_header_is_transparent_witness :
  strip_data_url "data:image" "data:image/png;base64,aGVsbG8=" = Ok "aGVsbG8="
  /\ strip_data_url "data:image" "data:image/png;base64,aGVsbG8=,rest"
     = Ok "aGVsbG8=".
Proof.
  destruct (data_url_header_is_transparent
              (decode_base64_image (Collaborators := C))
              "data:image" "data:image/png;base64" "aGVsbG8="
              eq_refl eq_refl eq_refl)
    as (Hstrip & Htail & _).
  split; [exact Hstrip | exact (Htail "rest")].
Defined.

Lemma data_url_without_comma_is_rejected_witness :
  decode_base64_image_impl (decode_base64_image (Collaborators := C))
                           "data:image/png;base64"
  = HTTPRaised 400 "Invalid image data".
Proof.
  exact (proj2 (data_url_without_comma_is_rejected
                  (decode_base64_image (Collaborators := C))
                  "data:image" "data:image/png;base64" eq_refl eq_refl)
               eq_refl).
Defined.

(** Twelve frames of which nine show a face. *)
Lemma few_face_frames_are_insufficient_witness :
  lip_sync_analysis
    (fst (collect_lip_movements
            (fun (gap : Q) (_ : nat) => (0, gap)) snd 0
            (repeat [0.01] 9 ++ repeat [] 3)%list))
    (snd (collect_lip_movements
            (fun (gap : Q) (_ : nat) => (0, gap)) snd 0
            (repeat [0.01] 9 ++ repeat [] 3)%list))
    (repeat x00 2000)
  = Raised "Insufficient video data for lip sync analysis".
Proof.
  apply few_face_frames_are_insufficient.
  - intros faces Hin.
    repeat (destruct Hin as [<- | Hin]; [simpl; lia|]). contradiction.
  - simpl. lia.
Defined.

End MoreExamples.
